(** * gopayloader: configuration validation and worker construction

    A shallow embedding of
    - package [config]  ([Config], [NewConfig], [Validate], [methodAllowed]),
    - package [worker]  ([Config], [NewWorker], [getClient], [baseConfig],
      [WorkerFixedReqs.Run]),
    - package [nethttp] ([GetNetHTTPClient], [GetNetHTTP3Client], and the
      methods of [Req], [Resp] and [Client]),
    together with the properties of these functions that the specification
    relies on.

    Go's standard library and the third-party packages (net/url, os,
    encoding/json, crypto/tls, regexp, fasthttp, dgrr/http2) are outside the
    repository.  The regular-expression matcher is modelled in full (the
    pattern is a literal of the source); the calls whose result depends on
    the machine or on a library (file system, certificate loading, URL
    parsing, what [http2.ConfigureClient] makes of a client) are fields
    of a record [World]. *)

From Stdlib Require Import ZArith Lia Bool List Ascii String.
From stdpp Require Import base option strings gmap.

Import ListNotations.

Set Default Proof Using "Type".

(* ================================================================== *)
(** ** Go integers *)

Module GoInt.
Local Open Scope Z_scope.

(** [uint] on the 64-bit targets the tool is built for: [0 .. 2^64-1]. *)
Definition uint_max : Z := 2 ^ 64 - 1.
Definition is_uint (n : Z) : Prop := 0 <= n <= uint_max.

(** The conversion [int64(x)] of a [uint]: the low 64 bits read as a
    two's-complement number (Go conversions between integer types never
    fail, they wrap). *)
Definition int64_of_uint (n : Z) : Z :=
  let m := n mod 2 ^ 64 in
  if m <? 2 ^ 63 then m else m - 2 ^ 64.
End GoInt.

(* ================================================================== *)
(** ** Package regexp: the fragment of RE2 syntax used by the source *)

Module regexp.

(** Abstract syntax.  A character class is its membership test. *)
Inductive regex : Type :=
| Void                                   (* matches nothing *)
| Eps                                    (* the empty string *)
| Class (p : ascii -> bool)              (* one character of a class *)
| Seq (r1 r2 : regex)                    (* r1 r2 *)
| Alt (r1 r2 : regex)                    (* r1|r2 *)
| Star (r : regex).                      (* r* *)

Definition Chr (a : ascii) : regex := Class (Ascii.eqb a).
Definition Opt (r : regex) : regex := Alt r Eps.          (* r? *)
Definition Plus (r : regex) : regex := Seq r (Star r).    (* r+ *)

(** A literal string. *)
Fixpoint Lit (s : string) : regex :=
  match s with
  | EmptyString => Eps
  | String a s' => Seq (Chr a) (Lit s')
  end.

(** [.] without the [s] flag: any character but a line feed. *)
Definition is_newline (a : ascii) : bool := Ascii.eqb a "010"%char.
Definition Dot : regex := Class (fun a => negb (is_newline a)).

(** [\d]: an ASCII digit. *)
Definition is_digit (a : ascii) : bool :=
  ((48 <=? nat_of_ascii a) && (nat_of_ascii a <=? 57))%nat.
Definition Digit : regex := Class is_digit.

(** Any character at all (used for the unanchored search). *)
Definition AnyChar : regex := Class (fun _ => true).

(** The language of a regular expression. *)
Inductive matches : regex -> list ascii -> Prop :=
| m_eps : matches Eps []
| m_class p a : p a = true -> matches (Class p) [a]
| m_seq r1 r2 s1 s2 :
    matches r1 s1 -> matches r2 s2 -> matches (Seq r1 r2) (s1 ++ s2)
| m_alt_l r1 r2 s : matches r1 s -> matches (Alt r1 r2) s
| m_alt_r r1 r2 s : matches r2 s -> matches (Alt r1 r2) s
| m_star_nil r : matches (Star r) []
| m_star_app r s1 s2 :
    matches r s1 -> matches (Star r) s2 -> matches (Star r) (s1 ++ s2).

(** Matching by derivatives. *)
Fixpoint nullable (r : regex) : bool :=
  match r with
  | Void => false
  | Eps => true
  | Class _ => false
  | Seq r1 r2 => nullable r1 && nullable r2
  | Alt r1 r2 => nullable r1 || nullable r2
  | Star _ => true
  end.

Definition is_void (r : regex) : bool :=
  match r with Void => true | _ => false end.

(** Constructors that drop the branches that can no longer match. *)
Definition seq' (r1 r2 : regex) : regex :=
  if is_void r1 then Void else Seq r1 r2.
Definition alt' (r1 r2 : regex) : regex :=
  if is_void r1 then r2 else if is_void r2 then r1 else Alt r1 r2.

Fixpoint deriv (a : ascii) (r : regex) : regex :=
  match r with
  | Void => Void
  | Eps => Void
  | Class p => if p a then Eps else Void
  | Seq r1 r2 =>
      if nullable r1
      then alt' (seq' (deriv a r1) r2) (deriv a r2)
      else seq' (deriv a r1) r2
  | Alt r1 r2 => alt' (deriv a r1) (deriv a r2)
  | Star r1 => seq' (deriv a r1) (Star r1)
  end.

Fixpoint derivs (s : list ascii) (r : regex) : regex :=
  match s with
  | [] => r
  | a :: s' => derivs s' (deriv a r)
  end.

(** Does [r] match the whole of [s]? *)
Definition full_match (r : regex) (s : list ascii) : bool :=
  nullable (derivs s r).

(** [Regexp.MatchString]: does [s] contain a match of [r]? *)
Definition MatchString (r : regex) (s : string) : bool :=
  full_match (Seq (Star AnyChar) (Seq r (Star AnyChar)))
             (list_ascii_of_string s).

End regexp.

(* ================================================================== *)
(** ** What the code sees of the libraries and of the machine *)

(** [time.Duration] is an [int64] count of nanoseconds. *)
Definition time_Duration := Z.

(** [context.Context], as far as the workers use it: the answers to the
    successive non-blocking polls of [Done()].  [ctx k = true] says that the
    channel is closed when it is polled for the [k]-th time (from 0). *)
Definition Context := nat -> bool.

(** [*sync.WaitGroup]: [Wait] and [Done] carry no data. *)
Definition WaitGroup := unit.

(** [url.URL]: the two components [getClient] reads. *)
Record URL := mkURL { Scheme : string; Host : string }.

(** [tls.Certificate], as loaded from a certificate file and a key file. *)
Inductive Certificate := X509KeyPair (certFile keyFile : string).

(** [tls.Config]: the two fields the code sets. *)
Record tls_Config := mk_tls_Config {
  InsecureSkipVerify : bool;
  Certificates : list Certificate
}.

(** The [Transport] of a [fasthttp.HostClient]: the default one (the
    field is left unset), or one of an HTTP/2 library. *)
Inductive Transport := DefaultTransport | HTTP2Transport.

(** [fasthttp.HostClient]: the fields [getClient] sets. *)
Record HostClient := mkHostClient {
  Addr : string;
  IsTLS : bool;
  MaxConns : Z;
  hc_ReadTimeout : time_Duration;
  hc_WriteTimeout : time_Duration;
  DisableHeaderNamesNormalizing : bool;
  TLSConfig : tls_Config;
  hc_Transport : Transport
}.

(** The outcome of [os.OpenFile(name, os.O_RDONLY, os.ModePerm)], with the
    verdict of [os.IsNotExist] on its error. *)
Inductive open_result :=
| Opened
| NotExist
| OpenError (msg : string).

(** The calls that leave the program.  An error is kept as its text. *)
Record World := mkWorld {
  (* url.ParseRequestURI *)
  ParseRequestURI : string -> URL + string;
  (* os.OpenFile *)
  OpenFile : string -> open_result;
  (* json.Unmarshal into a map[string]interface{}: the error, if any *)
  Unmarshal : string -> option string;
  (* tls.LoadX509KeyPair certFile keyFile *)
  LoadX509KeyPair : string -> string -> Certificate + string;
  (* http2.ConfigureClient(client, http2.ClientOpts{MaxResponseTime}):
     the call gets the pointer to the client and may write any of its
     fields; this is the client as the call leaves it, or the error *)
  ConfigureClient : HostClient -> time_Duration -> HostClient + string
}.

(* ================================================================== *)
(** ** Package config *)

Module config.
Local Open Scope string_scope.
Local Open Scope Z_scope.

Record Config := mkConfig {
  Ctx : Context;
  ReqURI : string;
  DisableKeepAlive : bool;
  ReqTarget : Z;                 (* int64 *)
  Conns : Z;                     (* uint *)
  Duration : time_Duration;
  MTLSKey : string;
  MTLSCert : string;
  SkipVerify : bool;
  ReadTimeout : time_Duration;
  WriteTimeout : time_Duration;
  Method : string;
  Verbose : bool;
  VerboseTicker : time_Duration;
  JwtKID : string;
  JwtKey : string;
  JwtSub : string;
  JwtCustomClaimsJSON : string;
  JwtIss : string;
  JwtAud : string;
  JwtHeader : string;
  JwtsFilename : string;
  SendJWT : bool;
  Headers : list string;
  Body : string;
  BodyFile : string;
  Client : string
}.

(** [NewConfig]: every field from its argument, [SendJWT] at its zero
    value. *)
Definition NewConfig (ctx : Context) (reqURI mTLScert mTLSKey : string)
    (disableKeepAlive : bool) (reqs : Z) (conns : Z) (totalTime : Z)
    (skipVerify : bool) (readTimeout writeTimeout : Z) (method : string)
    (verbose : bool) (ticker : Z)
    (jwtKID jwtKey jwtSub jwtCustomClaimsJSON jwtIss jwtAud jwtHeader
       jwtsFilename : string)
    (headers : list string) (body bodyFile : string) (client : string)
  : Config :=
  {| Ctx := ctx; ReqURI := reqURI; MTLSKey := mTLSKey; MTLSCert := mTLScert;
     DisableKeepAlive := disableKeepAlive; ReqTarget := reqs;
     Conns := conns; Duration := totalTime; SkipVerify := skipVerify;
     ReadTimeout := readTimeout; WriteTimeout := writeTimeout;
     Method := method; Verbose := verbose; VerboseTicker := ticker;
     JwtKID := jwtKID; JwtKey := jwtKey; JwtSub := jwtSub;
     JwtCustomClaimsJSON := jwtCustomClaimsJSON; JwtIss := jwtIss;
     JwtAud := jwtAud; JwtHeader := jwtHeader;
     JwtsFilename := jwtsFilename; SendJWT := false; Headers := headers;
     Body := body; BodyFile := bodyFile; Client := client |}.

(** The assignment [c.SendJWT = b]. *)
Definition set_SendJWT (b : bool) (c : Config) : Config :=
  {| Ctx := Ctx c; ReqURI := ReqURI c;
     DisableKeepAlive := DisableKeepAlive c; ReqTarget := ReqTarget c;
     Conns := Conns c; Duration := Duration c; MTLSKey := MTLSKey c;
     MTLSCert := MTLSCert c; SkipVerify := SkipVerify c;
     ReadTimeout := ReadTimeout c; WriteTimeout := WriteTimeout c;
     Method := Method c; Verbose := Verbose c;
     VerboseTicker := VerboseTicker c; JwtKID := JwtKID c;
     JwtKey := JwtKey c; JwtSub := JwtSub c;
     JwtCustomClaimsJSON := JwtCustomClaimsJSON c; JwtIss := JwtIss c;
     JwtAud := JwtAud c; JwtHeader := JwtHeader c;
     JwtsFilename := JwtsFilename c; SendJWT := b; Headers := Headers c;
     Body := Body c; BodyFile := BodyFile c; Client := Client c |}.

(** The errors [Validate] returns.  [errConnLimit] is the package-level
    value; the others are built where they are returned, with the values
    that [fmt.Errorf] formats into them. *)
Inductive error :=
| ErrInvalidURI (err : string)
| errConnLimit
| ErrZeroConns
| ErrURLFormat (uri : string)
| ErrMTLSKeyNotExist
| ErrMTLSKeyCheck (err : string)
| ErrMTLSCertNotExist
| ErrMTLSCertCheck (err : string)
| ErrEmptyJwtHeader
| ErrEmptyJwtSource
| ErrJwtKeyNotExist
| ErrJwtKeyCheck (err : string)
| ErrJwtNeedsReqs
| ErrJwtFileNotExist (filename : string)
| ErrJwtFileCheck (err : string)
| ErrHeaderNoColon (h : string)
| ErrBodyFileNotExist
| ErrBodyFileCheck (err : string)
| ErrTickerZero
| ErrMethodNotAllowed (method : string)
| ErrWriteTimeoutZero
| ErrReadTimeoutZero
| ErrNoBudget
| ErrJwtClaims (err : string).

(** The text of each error ([error.Error()]). *)
Definition Error (e : error) : string :=
  match e with
  | ErrInvalidURI err => "config: invalid request uri, got error " ++ err
  | errConnLimit => "connections can't be more than requests"
  | ErrZeroConns => "0 connections not allowed"
  | ErrURLFormat uri =>
      "url not in correct format " ++ uri ++
      " needs to be like protocol://host:port/path i.e. https://localhost:443/some-path"
  | ErrMTLSKeyNotExist => "config: mTLS private key does not exist"
  | ErrMTLSKeyCheck err =>
      "config: mTLS private key error checking file exists; " ++ err
  | ErrMTLSCertNotExist => "config: mTLS cert does not exist"
  | ErrMTLSCertCheck err =>
      "config: mTLS cert error checking file exists; " ++ err
  | ErrEmptyJwtHeader => "config: empty jwt header"
  | ErrEmptyJwtSource =>
      "config: empty jwt filename and jwt key, one of those is needed to send requests with JWTs"
  | ErrJwtKeyNotExist => "config: jwt key does not exist"
  | ErrJwtKeyCheck err =>
      "config: jwt key error checking file exists; " ++ err
  | ErrJwtNeedsReqs => "can only send jwts when request number is specified"
  | ErrJwtFileNotExist filename =>
      "config: jwt file does not exist: " ++ filename
  | ErrJwtFileCheck err =>
      "config: jwt file error checking file exists; " ++ err
  | ErrHeaderNoColon h => "header " ++ h ++ " does not contain : "
  | ErrBodyFileNotExist => "config: body file does not exist"
  | ErrBodyFileCheck err =>
      "config: body file error checking file exists; " ++ err
  | ErrTickerZero => "ticker value can't be zero"
  | ErrMethodNotAllowed method => "method " ++ method ++ " not allowed"
  | ErrWriteTimeoutZero => "write timeout is zero"
  | ErrReadTimeoutZero => "read timeout is zero"
  | ErrNoBudget => "config: ReqTarget 0 and Duration 0"
  | ErrJwtClaims err =>
      "config: failed to parse custom json in --jwt-claims, got error; "
      ++ err
  end.

(** [const regEx = `https?:\/\/(.)*(?::\d+)`] *)
Definition regEx : regexp.regex :=
  regexp.Seq (regexp.Lit "http")
 (regexp.Seq (regexp.Opt (regexp.Chr "s"))
 (regexp.Seq (regexp.Chr ":")
 (regexp.Seq (regexp.Chr "/")
 (regexp.Seq (regexp.Chr "/")
 (regexp.Seq (regexp.Star regexp.Dot)
 (regexp.Seq (regexp.Chr ":")
             (regexp.Plus regexp.Digit))))))).

Definition regExHostURI : regexp.regex := regEx.

Definition allowedMethods : list string := ["GET"; "PUT"; "POST"; "DELETE"].

Fixpoint methodAllowed_from (ms : list string) (method : string) : bool :=
  match ms with
  | [] => false
  | m :: ms' => if String.eqb method m then true
                else methodAllowed_from ms' method
  end.

Definition methodAllowed (method : string) : bool :=
  methodAllowed_from allowedMethods method.

(** [strings.Contains(s, substr)]. *)
Fixpoint Contains (s substr : string) : bool :=
  if String.prefix substr s then true
  else match s with
       | EmptyString => false
       | String _ s' => Contains s' substr
       end.

(** [JwtCustomClaimsJSONStringToMap]: only its error is used by
    [Validate]. *)
Definition JwtCustomClaimsJSONStringToMap (w : World)
    (jwtCustomClaimsJSON : string) : option string :=
  if String.eqb jwtCustomClaimsJSON "" then None
  else Unmarshal w jwtCustomClaimsJSON.

(** *** The body of [Validate]: statements over the receiver [c]

    A statement either falls through, perhaps after an assignment to the
    receiver, or returns an error. *)
Definition M (A : Type) : Type := Config -> (error + A) * Config.

Definition ret {A} (a : A) : M A := fun c => (inr a, c).
Definition bind {A B} (m : M A) (k : A -> M B) : M B :=
  fun c => match m c with
           | (inl e, c') => (inl e, c')
           | (inr a, c') => k a c'
           end.
Definition return_err {A} (e : error) : M A := fun c => (inl e, c).
Definition receiver {A} (f : Config -> M A) : M A := fun c => f c c.
Definition assign_SendJWT (b : bool) : M unit :=
  fun c => (inr tt, set_SendJWT b c).

Declare Scope go_scope.
Delimit Scope go_scope with go.
Notation "m ;; k" := (bind m (fun _ => k))
  (at level 100, k at level 200) : go_scope.
(** A statement that reads fields of the receiver, here named [c]. *)
Notation "'recv' c '=>' s" := (receiver (fun c => s))
  (at level 99, c name, s at level 99) : go_scope.
Notation "'If' b 'Return' e" :=
  (if b then return_err e else ret tt)
  (at level 60, b at level 9, e at level 9) : go_scope.

(** The repeated block
    [_, err := os.OpenFile(path, os.O_RDONLY, os.ModePerm);
     if err != nil { if os.IsNotExist(err) { return notExist };
                     return check(err) }]. *)
Definition must_open (w : World) (path : string)
    (notExist : error) (check : string -> error) : M unit :=
  match OpenFile w path with
  | Opened => ret tt
  | NotExist => return_err notExist
  | OpenError msg => return_err (check msg)
  end.

(** [for _, h := range c.Headers { if !strings.Contains(h, ":") {...} }] *)
Fixpoint check_headers (hs : list string) : M unit :=
  match hs with
  | [] => ret tt
  | h :: hs' =>
      if negb (Contains h ":") then return_err (ErrHeaderNoColon h)
      else check_headers hs'
  end.

Local Open Scope go_scope.

Definition Validate_body (w : World) : M unit :=
  (recv c =>
     match ParseRequestURI w (ReqURI c) with
     | inr err => return_err (ErrInvalidURI err)
     | inl _ => ret tt
     end) ;;
  (recv c =>
     If ((GoInt.int64_of_uint (Conns c) >? ReqTarget c)
         && (Duration c =? 0))
       Return errConnLimit) ;;
  (recv c =>
     If ((GoInt.int64_of_uint (Conns c) >? ReqTarget c)
         && negb (ReqTarget c =? 0) && negb (Duration c =? 0))
       Return errConnLimit) ;;
  (recv c => If (Conns c =? 0) Return ErrZeroConns) ;;

  (recv c =>
     If (negb (regexp.MatchString regExHostURI (ReqURI c)))
       Return (ErrURLFormat (ReqURI c))) ;;

  (recv c =>
     if negb (String.eqb (MTLSKey c) "")
     then must_open w (MTLSKey c) ErrMTLSKeyNotExist ErrMTLSKeyCheck
     else ret tt) ;;
  (recv c =>
     if negb (String.eqb (MTLSCert c) "")
     then must_open w (MTLSCert c) ErrMTLSCertNotExist ErrMTLSCertCheck
     else ret tt) ;;

  (* Require JwtHeader if JwtKey or JwtsFilename is present *)
  (recv c =>
     If ((negb (String.eqb (JwtsFilename c) "")
          || negb (String.eqb (JwtKey c) ""))
         && String.eqb (JwtHeader c) "")
       Return ErrEmptyJwtHeader) ;;
  (* Require JwtKey or JwtsFilename if JwtHeader is present *)
  (recv c =>
     If (negb (String.eqb (JwtHeader c) "")
         && String.eqb (JwtsFilename c) "" && String.eqb (JwtKey c) "")
       Return ErrEmptyJwtSource) ;;

  (recv c =>
     if negb (String.eqb (JwtKey c) "")
     then
       must_open w (JwtKey c) ErrJwtKeyNotExist ErrJwtKeyCheck ;;
       (recv c => If (ReqTarget c =? 0) Return ErrJwtNeedsReqs) ;;
       assign_SendJWT true
     else ret tt) ;;

  (recv c =>
     if negb (String.eqb (JwtsFilename c) "")
     then
       must_open w (JwtsFilename c) (ErrJwtFileNotExist (JwtsFilename c))
                 ErrJwtFileCheck ;;
       (recv c => If (ReqTarget c =? 0) Return ErrJwtNeedsReqs) ;;
       assign_SendJWT true
     else ret tt) ;;

  (recv c =>
     if (0 <? Z.of_nat (List.length (Headers c)))
     then check_headers (Headers c)
     else ret tt) ;;

  (recv c =>
     if (0 <? Z.of_nat (String.length (BodyFile c)))
     then must_open w (BodyFile c) ErrBodyFileNotExist ErrBodyFileCheck
     else ret tt) ;;

  (recv c => If (VerboseTicker c =? 0) Return ErrTickerZero) ;;

  (recv c =>
     If (negb (methodAllowed (Method c)))
       Return (ErrMethodNotAllowed (Method c))) ;;

  (recv c => If (WriteTimeout c =? 0) Return ErrWriteTimeoutZero) ;;
  (recv c => If (ReadTimeout c =? 0) Return ErrReadTimeoutZero) ;;

  (recv c =>
     If ((ReqTarget c =? 0) && (Duration c =? 0)) Return ErrNoBudget) ;;

  (recv c =>
     if negb (String.eqb (JwtCustomClaimsJSON c) "")
     then match JwtCustomClaimsJSONStringToMap w (JwtCustomClaimsJSON c)
          with
          | Some err => return_err (ErrJwtClaims err)
          | None => ret tt
          end
     else ret tt) ;;

  ret tt.

(** [func (c *Config) Validate() error]: the error ([None] for [nil]) and
    the receiver as the call leaves it. *)
Definition Validate (w : World) (c : Config) : option error * Config :=
  match Validate_body w c with
  | (inl e, c') => (Some e, c')
  | (inr _, c') => (None, c')
  end.

End config.

(* ================================================================== *)
(** ** Package worker *)

Module worker.
Local Open Scope string_scope.
Local Open Scope Z_scope.

Record Config := mkConfig {
  ReqURI : string;
  DisableKeepAlive : bool;
  SkipVerify : bool;
  MTLSKey : string;
  MTLSCert : string;
  Reqs : Z;                      (* int64 *)
  Ctx : Context;
  StartTrigger : WaitGroup;
  Until : time_Duration;
  ReqEvery : time_Duration;
  ReadTimeout : time_Duration;
  WriteTimeout : time_Duration;
  Method : string;
  Verbose : bool;
  HTTPV2 : bool
}.

Definition ResponseCode := Z.
Definition ReqLatency := (Z * Z)%type.        (* [2]int64 *)

Record Stats := mkStats {
  CompletedReqs : Z;
  FailedReqs : Z;
  stats_Reqs : list ReqLatency;
  Responses : gmap Z Z;          (* map[ResponseCode]int64 *)
  Errors : gmap string Z         (* map[string]uint *)
}.

Definition TimeLimited (c : Config) : bool := negb (Until c =? 0).

Definition UnlimitedReqs (c : Config) : bool :=
  negb (Until c =? 0) && (Reqs c =? 0).

(** A [*Config]: an address in the store of configurations. *)
Definition loc := nat.

(** A [fasthttp.Request], as far as the pool's constructor fills it in:
    the headers added, the method bytes ([""] while unset, which fasthttp
    reads as GET) and the request URI. *)
Record Request := mkRequest {
  req_Header : list (string * string);
  req_Method : string;
  req_URI : string
}.

Definition HeaderConnection : string := "Connection".

(** The two pools.  A [sync.Pool] is its [New] function; the one of the
    request pool is a closure over the variable [config], a pointer. *)
Inductive RequestPool := RequestPool_New (config : loc).
Inductive ResponsePool := ResponsePool_New.

(** The package-level variables and the store that pointers refer to. *)
Record Process := mkProcess {
  heap : gmap loc Config;
  requestPool : option RequestPool;      (* [None] is [nil] *)
  responsePool : option ResponsePool
}.

(** The body of the request pool's [New], on the configuration as the
    store holds it when [New] runs. *)
Definition new_request (config : Config) : Request :=
  let req := {| req_Header := []; req_Method := ""; req_URI := "" |} in
  let req := if DisableKeepAlive config
             then {| req_Header := req_Header req ++ [(HeaderConnection, "close")];
                     req_Method := req_Method req; req_URI := req_URI req |}
             else req in
  let req := if negb (String.eqb (Method config) "GET")
             then {| req_Header := req_Header req;
                     req_Method := Method config; req_URI := req_URI req |}
             else req in
  {| req_Header := req_Header req; req_Method := req_Method req;
     req_URI := ReqURI config |}.

(** What [requestPool.New()] returns in a given process: [None] when the
    pool is [nil] or the pointer is. *)
Definition pooled_request (σ : Process) : option Request :=
  match requestPool σ with
  | None => None
  | Some (RequestPool_New l) =>
      match heap σ !! l with
      | None => None
      | Some config => Some (new_request config)
      end
  end.

Record WorkerBase := mkWorkerBase {
  config : loc;
  client : HostClient;
  stats : Stats
}.

(** The three implementations of the interface [Worker]. *)
Inductive Worker :=
| WorkerFixedReqs (b : WorkerBase)
| WorkerFixedTime (b : WorkerBase)
| WorkerFixedTimeRequests (b : WorkerBase).

Definition baseConfig (config : loc) (client : HostClient) : WorkerBase :=
  {| config := config; client := client;
     stats := {| CompletedReqs := 0; FailedReqs := 0; stats_Reqs := [];
                 Responses := ∅; Errors := ∅ |} |}.

(** [getClient], on the configuration its argument points to. *)
Definition getClient (w : World) (config : Config) : HostClient + string :=
  let tlsConfig := {| InsecureSkipVerify := SkipVerify config;
                      Certificates := [] |} in
  let loaded :=
    if negb (String.eqb (MTLSCert config) "")
       && negb (String.eqb (MTLSKey config) "")
    then match LoadX509KeyPair w (MTLSCert config) (MTLSKey config) with
         | inr err => inr err
         | inl cert =>
             inl {| InsecureSkipVerify := InsecureSkipVerify tlsConfig;
                    Certificates := [cert] |}
         end
    else inl tlsConfig in
  match loaded with
  | inr err => inr err
  | inl tlsConfig =>
      match ParseRequestURI w (ReqURI config) with
      | inr err => inr err
      | inl u =>
          let client :=
            {| Addr := Host u;
               IsTLS := String.eqb (Scheme u) "https";
               MaxConns := 1;
               hc_ReadTimeout := ReadTimeout config;
               hc_WriteTimeout := WriteTimeout config;
               DisableHeaderNamesNormalizing := true;
               TLSConfig := tlsConfig;
               hc_Transport := DefaultTransport |} in
          if negb (HTTPV2 config) then inl client
          else match ConfigureClient w client (ReadTimeout config) with
               | inr err => inr err
               | inl client => inl client
               end
      end
  end.

(** The result of a call: the value, an error, or the run-time panic of
    a [nil] pointer. *)
Inductive result (A : Type) :=
| Ok (a : A)
| Err (err : string)
| Panic.
Arguments Ok {A} a.
Arguments Err {A} err.
Arguments Panic {A}.

Definition NewWorker (w : World) (config : loc) (σ : Process)
  : result Worker * Process :=
  match heap σ !! config with
  | None => (Panic, σ)
  | Some c =>
      match getClient w c with
      | inr err => (Err err, σ)
      | inl client =>
          let σ := if responsePool σ is None
                   then {| heap := heap σ; requestPool := requestPool σ;
                           responsePool := Some ResponsePool_New |}
                   else σ in
          let σ := if requestPool σ is None
                   then {| heap := heap σ;
                           requestPool := Some (RequestPool_New config);
                           responsePool := responsePool σ |}
                   else σ in
          if negb (TimeLimited c)
          then (Ok (WorkerFixedReqs (baseConfig config client)), σ)
          else if UnlimitedReqs c
          then (Ok (WorkerFixedTime (baseConfig config client)), σ)
          else (Ok (WorkerFixedTimeRequests (baseConfig config client)), σ)
      end
  end.

(** A series of calls of [NewWorker], one after the other. *)
Fixpoint NewWorkers (w : World) (configs : list loc) (σ : Process)
  : Process :=
  match configs with
  | [] => σ
  | config :: rest => NewWorkers w rest (snd (NewWorker w config σ))
  end.

(** *** [WorkerFixedReqs.Run]

    [w.run()] is a method of [WorkerBase] declared in another file of
    the package.  It is a parameter here: a step on whatever it reads and writes (the worker's statistics,
    its connection, the server), which does not include the fields
    [Reqs], [Verbose] and [Ctx] of the configuration. *)
Section Run.
Context {St : Type}.
Variable run : St -> St.

(** [for i = 0; i < w.config.Reqs; i++ { select { case <-Ctx.Done():
    return; default: w.run() } }], with [n] iterations left and [k]
    polls of the context made so far.  The result says whether the loop
    left through [return]. *)
Fixpoint request_loop (ctx : Context) (n : nat) (k : nat) (s : St)
  : bool * nat * St :=
  match n with
  | O => (false, k, s)
  | S n' =>
      if ctx k then (true, S k, s)
      else request_loop ctx n' (S k) (run s)
  end.

Definition Run (config : Config) (s : St) : St :=
  let n := Z.to_nat (Reqs config) in
  (* defer wg.Done(); w.config.StartTrigger.Wait(): the model starts
     where the dispatcher has released the start trigger *)
  if Verbose config
  then
    match request_loop (Ctx config) n 0 s with
    | (true, _, s1) => s1                 (* user cancelled *)
    | (false, k, s1) =>
        match request_loop (Ctx config) n k s1 with
        | (_, _, s2) => s2
        end
    end
  else
    match request_loop (Ctx config) n 0 s with
    | (_, _, s2) => s2
    end.
End Run.

(** The number of times [Run] calls [w.run()]. *)
Definition requests_issued (config : Config) : nat :=
  Run S config O.

End worker.

(* ================================================================== *)
(** ** Package nethttp *)

Module nethttp.
Local Open Scope string_scope.
Local Open Scope Z_scope.

(** Modelled from the spec: [http_clients.Config] is declared in the
    package http-clients, not here.  These are the fields the constructors of
    this package read; the transport options of the specification's
    Config (skip-verify flag, client certificate and key, read and write
    timeout), typed as the fields of the same names in [worker.Config]. *)
Record Config := mkConfig {
  SkipVerify : bool;
  MTLSCert : string;
  MTLSKey : string;
  ReadTimeout : time_Duration;
  WriteTimeout : time_Duration
}.

(** The [Transport] of an [http.Client]. *)
Inductive RoundTripper :=
| http_Transport (TLSClientConfig : tls_Config)
| http3_RoundTripper (TLSClientConfig : tls_Config).

Definition TLSClientConfig (t : RoundTripper) : tls_Config :=
  match t with
  | http_Transport c => c
  | http3_RoundTripper c => c
  end.

Record http_Client := mk_http_Client {
  Transport : RoundTripper;
  Timeout : time_Duration
}.

Record Client := mkClient { client : http_Client }.

(** Addition of two [int64]. *)
Definition add64 (a b : Z) : Z :=
  (a + b + 2 ^ 63) mod 2 ^ 64 - 2 ^ 63.

(** The block shared by the two constructors: the TLS configuration,
    with the client certificate when both paths are given. *)
Definition tlsConfig_of (w : World) (config : Config)
  : tls_Config + string :=
  let tlsConfig := {| InsecureSkipVerify := SkipVerify config;
                      Certificates := [] |} in
  if negb (String.eqb (MTLSCert config) "")
     && negb (String.eqb (MTLSKey config) "")
  then match LoadX509KeyPair w (MTLSCert config) (MTLSKey config) with
       | inr err => inr err
       | inl cert =>
           inl {| InsecureSkipVerify := InsecureSkipVerify tlsConfig;
                  Certificates := [cert] |}
       end
  else inl tlsConfig.

Definition GetNetHTTPClient (w : World) (config : Config)
  : Client + string :=
  match tlsConfig_of w config with
  | inr err => inr err
  | inl tlsConfig =>
      inl {| client :=
               {| Transport := http_Transport tlsConfig;
                  Timeout := add64 (ReadTimeout config)
                                   (WriteTimeout config) |} |}
  end.

Definition GetNetHTTP3Client (w : World) (config : Config)
  : Client + string :=
  match tlsConfig_of w config with
  | inr err => inr err
  | inl tlsConfig =>
      inl {| client := {| Transport := http3_RoundTripper tlsConfig;
                          Timeout := 0 |} |}
  end.

End nethttp.

(* ================================================================== *)
(** ** Vocabulary of the statements *)

Module spec.
Import regexp.
Local Open Scope string_scope.
Local Open Scope Z_scope.

(** The pattern as the specification writes it,
    [^https?://[^/]+(:\d+)?]: anchored at the start, open at the end. *)
Definition uri_pattern : regex :=
  Seq (Lit "http")
 (Seq (Opt (Chr "s"))
 (Seq (Lit "://")
 (Seq (Plus (Class (fun a => negb (Ascii.eqb a "/"))))
      (Opt (Seq (Chr ":") (Plus Digit)))))).

Definition matches_uri_pattern (s : string) : bool :=
  full_match (Seq uri_pattern (Star AnyChar)) (list_ascii_of_string s).

(** What a subject must look like for the pattern of the source to match
    it: somewhere in it [http] or [https], then [://], then characters
    of one line, then a colon and a digit. *)
Definition has_scheme_and_port (s : string) : Prop :=
  ∃ (pre sch mid : string) (d : ascii) (post : string),
    s = pre ++ "http" ++ sch ++ "://" ++ mid ++ ":" ++ String d post
    ∧ (sch = "" ∨ sch = "s")
    ∧ forallb (fun a => negb (is_newline a)) (list_ascii_of_string mid)
      = true
    ∧ is_digit d = true.

(** The request URI is not what [Validate] objects to. *)
Definition uri_accepted (r : option config.error) : bool :=
  match r with
  | Some (config.ErrInvalidURI _) | Some (config.ErrURLFormat _) => false
  | _ => true
  end.

(** The three tests on the number of connections fall through. *)
Definition connection_tests_pass (c : config.Config) : bool :=
  let conns := GoInt.int64_of_uint (config.Conns c) in
  negb ((conns >? config.ReqTarget c) && (config.Duration c =? 0))
  && negb ((conns >? config.ReqTarget c)
           && negb (config.ReqTarget c =? 0)
           && negb (config.Duration c =? 0))
  && negb (config.Conns c =? 0).

(** The errors of [Validate] that come from the token rules. *)
Definition is_jwt_error (e : config.error) : bool :=
  match e with
  | config.ErrEmptyJwtHeader | config.ErrEmptyJwtSource
  | config.ErrJwtKeyNotExist | config.ErrJwtKeyCheck _
  | config.ErrJwtNeedsReqs
  | config.ErrJwtFileNotExist _ | config.ErrJwtFileCheck _ => true
  | _ => false
  end.

(** *** The tests of [Validate], one by one

    Each is the error that the corresponding statement of the source
    returns on a configuration, [None] when it falls through. *)
Section Checks.
Import config.
Variable w : World.
Variable c : Config.

Definition opened_or (path : string) (notExist : error)
    (check : string -> error) : option error :=
  match OpenFile w path with
  | Opened => None
  | NotExist => Some notExist
  | OpenError msg => Some (check msg)
  end.

Definition chk_uri : option error :=
  match ParseRequestURI w (ReqURI c) with
  | inr err => Some (ErrInvalidURI err)
  | inl _ => None
  end.
Definition chk_limit_no_duration : option error :=
  if (GoInt.int64_of_uint (Conns c) >? ReqTarget c) && (Duration c =? 0)
  then Some errConnLimit else None.
Definition chk_limit_both_budgets : option error :=
  if (GoInt.int64_of_uint (Conns c) >? ReqTarget c)
     && negb (ReqTarget c =? 0) && negb (Duration c =? 0)
  then Some errConnLimit else None.
Definition chk_conns : option error :=
  if Conns c =? 0 then Some ErrZeroConns else None.
Definition chk_format : option error :=
  if negb (MatchString regExHostURI (ReqURI c))
  then Some (ErrURLFormat (ReqURI c)) else None.
Definition chk_mtls_key : option error :=
  if negb (String.eqb (MTLSKey c) "")
  then opened_or (MTLSKey c) ErrMTLSKeyNotExist ErrMTLSKeyCheck
  else None.
Definition chk_mtls_cert : option error :=
  if negb (String.eqb (MTLSCert c) "")
  then opened_or (MTLSCert c) ErrMTLSCertNotExist ErrMTLSCertCheck
  else None.
Definition chk_jwt_header : option error :=
  if (negb (String.eqb (JwtsFilename c) "")
      || negb (String.eqb (JwtKey c) ""))
     && String.eqb (JwtHeader c) ""
  then Some ErrEmptyJwtHeader else None.
Definition chk_jwt_source : option error :=
  if negb (String.eqb (JwtHeader c) "")
     && String.eqb (JwtsFilename c) "" && String.eqb (JwtKey c) ""
  then Some ErrEmptyJwtSource else None.
Definition chk_jwt_key : option error :=
  if negb (String.eqb (JwtKey c) "")
  then match opened_or (JwtKey c) ErrJwtKeyNotExist ErrJwtKeyCheck with
       | Some e => Some e
       | None => if ReqTarget c =? 0 then Some ErrJwtNeedsReqs else None
       end
  else None.
Definition chk_jwt_file : option error :=
  if negb (String.eqb (JwtsFilename c) "")
  then match opened_or (JwtsFilename c)
               (ErrJwtFileNotExist (JwtsFilename c)) ErrJwtFileCheck with
       | Some e => Some e
       | None => if ReqTarget c =? 0 then Some ErrJwtNeedsReqs else None
       end
  else None.
Definition chk_headers : option error :=
  if 0 <? Z.of_nat (List.length (Headers c))
  then option_map ErrHeaderNoColon
         (List.find (fun h => negb (Contains h ":")) (Headers c))
  else None.
Definition chk_body : option error :=
  if 0 <? Z.of_nat (String.length (BodyFile c))
  then opened_or (BodyFile c) ErrBodyFileNotExist ErrBodyFileCheck
  else None.
Definition chk_ticker : option error :=
  if VerboseTicker c =? 0 then Some ErrTickerZero else None.
Definition chk_method : option error :=
  if negb (methodAllowed (Method c))
  then Some (ErrMethodNotAllowed (Method c)) else None.
Definition chk_write : option error :=
  if WriteTimeout c =? 0 then Some ErrWriteTimeoutZero else None.
Definition chk_read : option error :=
  if ReadTimeout c =? 0 then Some ErrReadTimeoutZero else None.
Definition chk_budget : option error :=
  if (ReqTarget c =? 0) && (Duration c =? 0)
  then Some ErrNoBudget else None.
Definition chk_claims : option error :=
  if negb (String.eqb (JwtCustomClaimsJSON c) "")
  then option_map ErrJwtClaims
         (JwtCustomClaimsJSONStringToMap w (JwtCustomClaimsJSON c))
  else None.

(** The tests above the two token blocks, those blocks, and the tests
    below them. *)
Definition checks_before_jwt : list (option error) :=
  [chk_uri; chk_limit_no_duration; chk_limit_both_budgets; chk_conns;
   chk_format; chk_mtls_key; chk_mtls_cert; chk_jwt_header;
   chk_jwt_source].
Definition checks_after_jwt : list (option error) :=
  [chk_headers; chk_body; chk_ticker; chk_method; chk_write; chk_read;
   chk_budget; chk_claims].
End Checks.

(** The result of a statement that returns the error [o], if any. *)
Definition res (o : option config.error) : config.error + unit :=
  match o with Some e => inl e | None => inr tt end.

(** The first error of a series of tests. *)
Fixpoint first_error (l : list (option config.error))
  : option config.error :=
  match l with
  | [] => None
  | Some e :: _ => Some e
  | None :: l' => first_error l'
  end.

Definition checks (w : World) (c : config.Config)
  : list (option config.error) :=
  checks_before_jwt w c ++ [chk_jwt_key w c; chk_jwt_file w c]
  ++ checks_after_jwt w c.

(** Every test of [Validate] above the first token block passes. *)
Definition reaches_jwt_blocks (w : World) (c : config.Config) : bool :=
  match first_error (checks_before_jwt w c) with
  | None => true
  | Some _ => false
  end.

(** A token block is entered and left without an error. *)
Definition token_file_accepted (w : World) (c : config.Config)
    (path : string) : bool :=
  negb (String.eqb path "")
  && match OpenFile w path with Opened => true | _ => false end
  && negb (config.ReqTarget c =? 0).

(** The assignment [c.SendJWT = true] is executed: in the block of
    [JwtKey], or, that block skipped or passed, in the block of
    [JwtsFilename]. *)
Definition SendJWT_assigned (w : World) (c : config.Config) : bool :=
  reaches_jwt_blocks w c
  && (token_file_accepted w c (config.JwtKey c)
      || (String.eqb (config.JwtKey c) ""
          && token_file_accepted w c (config.JwtsFilename c))).

(** Both token blocks are behind: the tests above them and the blocks
    themselves returned no error. *)
Definition passes_jwt_blocks (w : World) (c : config.Config) : bool :=
  match first_error (checks_before_jwt w c
                     ++ [chk_jwt_key w c; chk_jwt_file w c]) with
  | None => true
  | Some _ => false
  end.

(** The configuration with another [Verbose] flag. *)
Definition with_Verbose (b : bool) (c : config.Config) : config.Config :=
  {| config.Ctx := config.Ctx c; config.ReqURI := config.ReqURI c;
     config.DisableKeepAlive := config.DisableKeepAlive c;
     config.ReqTarget := config.ReqTarget c;
     config.Conns := config.Conns c; config.Duration := config.Duration c;
     config.MTLSKey := config.MTLSKey c;
     config.MTLSCert := config.MTLSCert c;
     config.SkipVerify := config.SkipVerify c;
     config.ReadTimeout := config.ReadTimeout c;
     config.WriteTimeout := config.WriteTimeout c;
     config.Method := config.Method c; config.Verbose := b;
     config.VerboseTicker := config.VerboseTicker c;
     config.JwtKID := config.JwtKID c; config.JwtKey := config.JwtKey c;
     config.JwtSub := config.JwtSub c;
     config.JwtCustomClaimsJSON := config.JwtCustomClaimsJSON c;
     config.JwtIss := config.JwtIss c; config.JwtAud := config.JwtAud c;
     config.JwtHeader := config.JwtHeader c;
     config.JwtsFilename := config.JwtsFilename c;
     config.SendJWT := config.SendJWT c;
     config.Headers := config.Headers c; config.Body := config.Body c;
     config.BodyFile := config.BodyFile c;
     config.Client := config.Client c |}.

(** The worker configuration with another [Verbose] flag. *)
Definition worker_Verbose (verbose : bool) (c : worker.Config)
  : worker.Config :=
  {| worker.ReqURI := worker.ReqURI c;
     worker.DisableKeepAlive := worker.DisableKeepAlive c;
     worker.SkipVerify := worker.SkipVerify c;
     worker.MTLSKey := worker.MTLSKey c;
     worker.MTLSCert := worker.MTLSCert c;
     worker.Reqs := worker.Reqs c; worker.Ctx := worker.Ctx c;
     worker.StartTrigger := worker.StartTrigger c;
     worker.Until := worker.Until c; worker.ReqEvery := worker.ReqEvery c;
     worker.ReadTimeout := worker.ReadTimeout c;
     worker.WriteTimeout := worker.WriteTimeout c;
     worker.Method := worker.Method c; worker.Verbose := verbose;
     worker.HTTPV2 := worker.HTTPV2 c |}.

(** Exactly one of two paths is given. *)
Definition exactly_one (a b : string) : Prop :=
  (a ≠ "" ∧ b = "") ∨ (a = "" ∧ b ≠ "").

(** A context that is never cancelled. *)
Definition never_done : Context := fun _ => false.

(** A process in which no worker has been built yet. *)
Definition fresh (h : gmap worker.loc worker.Config) : worker.Process :=
  {| worker.heap := h; worker.requestPool := None;
     worker.responsePool := None |}.

End spec.

(* ================================================================== *)
(** ** Sample inputs *)

Module sample.
Local Open Scope string_scope.
Local Open Scope Z_scope.

(** What [url.ParseRequestURI] answers on the request URIs used below
    (the text of its errors is abridged); the table ends with an error. *)
Definition parse_request_uri (rawURL : string) : URL + string :=
  if String.eqb rawURL "http://localhost:8080/path"
  then inl (mkURL "http" "localhost:8080")
  else if String.eqb rawURL "https://localhost:443/some-path"
  then inl (mkURL "https" "localhost:443")
  else if String.eqb rawURL "http://example.com/path"
  then inl (mkURL "http" "example.com")
  else if String.eqb rawURL "http://example.com:8080/path"
  then inl (mkURL "http" "example.com:8080")
  else if String.eqb rawURL "" then inr "empty url"
  else inr "invalid URI for request".

(** A file system with two readable files. *)
Definition open_file (name : string) : open_result :=
  if String.eqb name "jwt.key" then Opened
  else if String.eqb name "tokens.txt" then Opened
  else NotExist.

(** Every key pair loads; the HTTP/2 library, given a client, switches
    it to TLS and installs its transport. *)
Definition world : World :=
  {| ParseRequestURI := parse_request_uri;
     OpenFile := open_file;
     Unmarshal := fun _ => None;
     LoadX509KeyPair := fun certFile keyFile =>
                          inl (X509KeyPair certFile keyFile);
     ConfigureClient := fun client _ =>
                          inl {| Addr := Addr client; IsTLS := true;
                                 MaxConns := MaxConns client;
                                 hc_ReadTimeout := hc_ReadTimeout client;
                                 hc_WriteTimeout := hc_WriteTimeout client;
                                 DisableHeaderNamesNormalizing :=
                                   DisableHeaderNamesNormalizing client;
                                 TLSConfig := TLSConfig client;
                                 hc_Transport := HTTP2Transport |} |}.

Definition second : Z := 1000000000.

(** A configuration as the command line builds it: GET, no mTLS, no
    headers, no body, timeouts of five seconds. *)
Definition config (reqURI : string) (reqs conns totalTime : Z)
    (verbose : bool) (ticker : Z)
    (jwtKey jwtHeader jwtsFilename : string) : config.Config :=
  config.NewConfig spec.never_done reqURI "" "" false reqs conns totalTime
    false (5 * second) (5 * second) "GET" verbose ticker
    "" jwtKey "" "" "" "" jwtHeader jwtsFilename [] "" "" "fasthttp".

(** A worker configuration for a run of [reqs] requests. *)
Definition worker_config (reqURI : string) (reqs : Z) (until : Z)
    (verbose : bool) : worker.Config :=
  {| worker.ReqURI := reqURI; worker.DisableKeepAlive := false;
     worker.SkipVerify := false; worker.MTLSKey := "";
     worker.MTLSCert := ""; worker.Reqs := reqs;
     worker.Ctx := spec.never_done; worker.StartTrigger := tt;
     worker.Until := until; worker.ReqEvery := 0;
     worker.ReadTimeout := 5 * second; worker.WriteTimeout := 5 * second;
     worker.Method := "GET"; worker.Verbose := verbose;
     worker.HTTPV2 := false |}.

(** The client that [getClient] builds for
    [worker_config "http://localhost:8080/path" _ _ _]. *)
Definition host_client : HostClient :=
  {| Addr := "localhost:8080"; IsTLS := false; MaxConns := 1;
     hc_ReadTimeout := 5 * second; hc_WriteTimeout := 5 * second;
     DisableHeaderNamesNormalizing := true;
     TLSConfig := {| InsecureSkipVerify := false; Certificates := [] |};
     hc_Transport := DefaultTransport |}.

(** Another worker configuration: another URI, another method, no
    keep-alive; a certificate path without a key path. *)
Definition other_worker_config : worker.Config :=
  {| worker.ReqURI := "https://localhost:443/some-path";
     worker.DisableKeepAlive := true;
     worker.SkipVerify := false; worker.MTLSKey := "";
     worker.MTLSCert := "client.crt"; worker.Reqs := 10;
     worker.Ctx := spec.never_done; worker.StartTrigger := tt;
     worker.Until := 0; worker.ReqEvery := 0;
     worker.ReadTimeout := 5 * second; worker.WriteTimeout := 5 * second;
     worker.Method := "POST"; worker.Verbose := false;
     worker.HTTPV2 := false |}.

(** A store with the two configurations, and a third whose request URI
    is empty. *)
Definition configs : gmap worker.loc worker.Config :=
  {[ 1%nat := worker_config "http://localhost:8080/path" 10 0 false;
     2%nat := other_worker_config;
     3%nat := worker_config "" 10 0 false ]}.

(** A configuration of the net/http client with a key path and no
    certificate path. *)
Definition nethttp_config : nethttp.Config :=
  {| nethttp.SkipVerify := false; nethttp.MTLSCert := "";
     nethttp.MTLSKey := "client.key";
     nethttp.ReadTimeout := 5 * second;
     nethttp.WriteTimeout := 5 * second |}.

(** Modelled from the spec: [w.run()] is declared in another file of
    the package.  This is step (g) of the per-request sequence (section
    4.4 of the specification) for a request that succeeds: the completed count goes up by one (the latency sample and
    the histogram entry are left out). *)
Definition run_ok (st : worker.Stats) : worker.Stats :=
  {| worker.CompletedReqs := worker.CompletedReqs st + 1;
     worker.FailedReqs := worker.FailedReqs st;
     worker.stats_Reqs := worker.stats_Reqs st;
     worker.Responses := worker.Responses st;
     worker.Errors := worker.Errors st |}.

Definition no_stats : worker.Stats :=
  {| worker.CompletedReqs := 0; worker.FailedReqs := 0;
     worker.stats_Reqs := []; worker.Responses := ∅;
     worker.Errors := ∅ |}.

End sample.

(* ================================================================== *)
(** ** Package nethttp: requests, responses and [Do] *)

Module nethttp_calls.
Local Open Scope string_scope.
Local Open Scope Z_scope.

(** [http.Response]: the field the package reads. *)
Record http_Response := mk_http_Response { resp_StatusCode : Z }.

(** [http.Request]: the fields the package writes.  [Header] is a
    [map[string][]string]; [GetBody], when set, is the content that each
    call of the function returns a fresh reader over. *)
Record http_Request := mk_http_Request {
  req_Method : string;
  req_Header : gmap string (list string);
  req_Body : option string;
  req_GetBody : option string
}.

(** The calls into net/http: [http.Client.Do] with its two results,
    [http.NewRequest(method, url, nil)], and the canonical form of a
    header key ([textproto.CanonicalMIMEHeaderKey]). *)
Record HTTP := mkHTTP {
  client_Do : nethttp.http_Client -> http_Request
              -> option http_Response * option string;
  NewRequest : string -> string -> http_Request + string;
  CanonicalMIMEHeaderKey : string -> string
}.

(** [type Req struct { req *http.Request }] and
    [type Resp struct { resp *http.Response }]; [None] is [nil]. *)
Record Req := mkReq { req : http_Request }.
Record Resp := mkResp { resp : option http_Response }.

(** [func (r *Resp) StatusCode() int]: the read of [r.resp.StatusCode],
    a panic when [r.resp] is [nil]. *)
Definition StatusCode (r : Resp) : worker.result Z :=
  match resp r with
  | None => worker.Panic
  | Some response => worker.Ok (resp_StatusCode response)
  end.

(** [func (r *Req) SetHeader(key, val string)]:
    [r.req.Header.Set(key, val)]. *)
Definition SetHeader (h : HTTP) (key val : string) (r : Req) : Req :=
  {| req := {| req_Method := req_Method (req r);
               req_Header := <[CanonicalMIMEHeaderKey h key := [val]]>
                               (req_Header (req r));
               req_Body := req_Body (req r);
               req_GetBody := req_GetBody (req r) |} |}.

(** [func (r *Req) SetMethod(method string)]. *)
Definition SetMethod (method : string) (r : Req) : Req :=
  {| req := {| req_Method := method;
               req_Header := req_Header (req r);
               req_Body := req_Body (req r);
               req_GetBody := req_GetBody (req r) |} |}.

(** [func (r *Req) SetBody(body []byte)]: the assignment to
    [r.req.GetBody]. *)
Definition SetBody (body : string) (r : Req) : Req :=
  {| req := {| req_Method := req_Method (req r);
               req_Header := req_Header (req r);
               req_Body := req_Body (req r);
               req_GetBody := Some body |} |}.

(** [func (fh *Client) NewResponse()]: [&Resp{}]. *)
Definition NewResponse : Resp := {| resp := None |}.

(** [func (fh *Client) NewReq(method, url string)]. *)
Definition NewReq (h : HTTP) (method url : string) : Req + string :=
  match NewRequest h method url with
  | inr err => inr err
  | inl request => inl {| req := request |}
  end.

(** [func (fh *Client) Do(req, resp) error], on a [*Req] and a [*Resp]:
    the response as the call leaves it, and the error. *)
Definition Do (h : HTTP) (fh : nethttp.Client) (request : Req) (_ : Resp)
  : Resp * option string :=
  let '(resptemp, err) := client_Do h (nethttp.client fh) (req request) in
  ({| resp := resptemp |}, err).

End nethttp_calls.

(* ================================================================== *)
(** ** More vocabulary *)

Module spec2.
Import config.
Local Open Scope string_scope.
Local Open Scope Z_scope.

(** A path that is not given, or that [os.OpenFile] opens. *)
Definition opens (w : World) (path : string) : Prop :=
  path = "" ∨ OpenFile w path = Opened.

(** What [Validate] asks of a configuration, rule by rule. *)
Definition acceptable (w : World) (c : Config) : Prop :=
  (∃ u, ParseRequestURI w (ReqURI c) = inl u)
  ∧ (GoInt.int64_of_uint (Conns c) ≤ ReqTarget c
     ∨ (Duration c ≠ 0 ∧ ReqTarget c = 0))
  ∧ Conns c ≠ 0
  ∧ spec.has_scheme_and_port (ReqURI c)
  ∧ opens w (MTLSKey c) ∧ opens w (MTLSCert c)
  ∧ (JwtHeader c = "" ↔ JwtKey c = "" ∧ JwtsFilename c = "")
  ∧ (JwtKey c ≠ "" ∨ JwtsFilename c ≠ "" → ReqTarget c ≠ 0)
  ∧ opens w (JwtKey c) ∧ opens w (JwtsFilename c)
  ∧ (∀ h, In h (Headers c) → ∃ pre post, h = pre ++ ":" ++ post)
  ∧ opens w (BodyFile c)
  ∧ VerboseTicker c ≠ 0
  ∧ In (Method c) allowedMethods
  ∧ WriteTimeout c ≠ 0 ∧ ReadTimeout c ≠ 0
  ∧ (ReqTarget c ≠ 0 ∨ Duration c ≠ 0)
  ∧ (JwtCustomClaimsJSON c = ""
     ∨ Unmarshal w (JwtCustomClaimsJSON c) = None).

(** The kind of a worker, and its base. *)
Inductive kind := FixedReqs | FixedTime | FixedTimeRequests.

Definition kind_of (wk : worker.Worker) : kind :=
  match wk with
  | worker.WorkerFixedReqs _ => FixedReqs
  | worker.WorkerFixedTime _ => FixedTime
  | worker.WorkerFixedTimeRequests _ => FixedTimeRequests
  end.

Definition base_of (wk : worker.Worker) : worker.WorkerBase :=
  match wk with
  | worker.WorkerFixedReqs b => b
  | worker.WorkerFixedTime b => b
  | worker.WorkerFixedTimeRequests b => b
  end.

(** The number of iterations the loops of [WorkerFixedReqs.Run] offer. *)
Definition iterations (c : worker.Config) : nat :=
  if worker.Verbose c then 2 * Z.to_nat (worker.Reqs c)
  else Z.to_nat (worker.Reqs c).

(** Two properties of an HTTP/2 library: [http2.ConfigureClient] leaves
    the certificates of the client it is given as they are; and it
    returns no error. *)
Definition keeps_certificates (w : World) : Prop :=
  ∀ client t client',
    ConfigureClient w client t = inl client' →
    Certificates (TLSConfig client') = Certificates (TLSConfig client).

Definition configures (w : World) : Prop :=
  ∀ client t, ∃ client', ConfigureClient w client t = inl client'.

(** A call of one of the three setters of [nethttp.Req], and a series
    of such calls on the same request, first to last. *)
Inductive setter :=
| header (key val : string)
| method (m : string)
| body (b : string).

Definition call (h : nethttp_calls.HTTP) (s : setter)
    (r : nethttp_calls.Req) : nethttp_calls.Req :=
  match s with
  | header key val => nethttp_calls.SetHeader h key val r
  | method m => nethttp_calls.SetMethod m r
  | body b => nethttp_calls.SetBody b r
  end.

Definition calls (h : nethttp_calls.HTTP) (l : list setter)
    (r : nethttp_calls.Req) : nethttp_calls.Req :=
  fold_left (fun r s => call h s r) l r.

(** The argument of the last call of [SetMethod] in a series, of the
    last call of [SetBody], and of the last call of [SetHeader] whose
    key has the canonical form [k]. *)
Definition last_method (l : list setter) : option string :=
  fold_left (fun acc s => if s is method m then Some m else acc) l None.

Definition last_body (l : list setter) : option string :=
  fold_left (fun acc s => if s is body b then Some b else acc) l None.

Definition last_header (h : nethttp_calls.HTTP) (k : string)
    (l : list setter) : option string :=
  fold_left (fun acc s =>
               match s with
               | header key val =>
                   if String.eqb (nethttp_calls.CanonicalMIMEHeaderKey h key) k
                   then Some val else acc
               | _ => acc
               end) l None.

End spec2.

(** More sample inputs. *)
Module sample2.
Local Open Scope string_scope.
Local Open Scope Z_scope.

(** A context that is done from the fourth poll on. *)
Definition done_after_three : Context := fun k => (3 <=? k)%nat.

Definition cancelled_worker_config (reqs : Z) (verbose : bool)
  : worker.Config :=
  {| worker.ReqURI := "http://localhost:8080/path";
     worker.DisableKeepAlive := false;
     worker.SkipVerify := false; worker.MTLSKey := "";
     worker.MTLSCert := ""; worker.Reqs := reqs;
     worker.Ctx := done_after_three; worker.StartTrigger := tt;
     worker.Until := 0; worker.ReqEvery := 0;
     worker.ReadTimeout := 5 * sample.second;
     worker.WriteTimeout := 5 * sample.second;
     worker.Method := "GET"; worker.Verbose := verbose;
     worker.HTTPV2 := false |}.

(** A file system in which the token file is there and cannot be read:
    [os.OpenFile] returns an error that [os.IsNotExist] does not
    recognise. *)
Definition unreadable_world : World :=
  {| ParseRequestURI := sample.parse_request_uri;
     OpenFile := fun name =>
                   if String.eqb name "tokens.txt"
                   then OpenError "permission denied"
                   else sample.open_file name;
     Unmarshal := Unmarshal sample.world;
     LoadX509KeyPair := LoadX509KeyPair sample.world;
     ConfigureClient := ConfigureClient sample.world |}.

(** A worker configuration with both mTLS paths, over HTTP/2 or not, and
    the like for the net/http client. *)
Definition mtls_worker_config (httpv2 : bool) : worker.Config :=
  {| worker.ReqURI := "https://localhost:443/some-path";
     worker.DisableKeepAlive := false;
     worker.SkipVerify := true; worker.MTLSKey := "client.key";
     worker.MTLSCert := "client.crt"; worker.Reqs := 10;
     worker.Ctx := spec.never_done; worker.StartTrigger := tt;
     worker.Until := 0; worker.ReqEvery := 0;
     worker.ReadTimeout := 5 * sample.second;
     worker.WriteTimeout := 5 * sample.second;
     worker.Method := "GET"; worker.Verbose := false;
     worker.HTTPV2 := httpv2 |}.

Definition mtls_nethttp_config : nethttp.Config :=
  {| nethttp.SkipVerify := true; nethttp.MTLSCert := "client.crt";
     nethttp.MTLSKey := "client.key";
     nethttp.ReadTimeout := 5 * sample.second;
     nethttp.WriteTimeout := 5 * sample.second |}.

(** The client that [getClient] hands to the HTTP/2 library for
    [mtls_worker_config true]. *)
Definition mtls_host_client : HostClient :=
  {| Addr := "localhost:443"; IsTLS := true; MaxConns := 1;
     hc_ReadTimeout := 5 * sample.second;
     hc_WriteTimeout := 5 * sample.second;
     DisableHeaderNamesNormalizing := true;
     TLSConfig := {| InsecureSkipVerify := true;
                     Certificates := [X509KeyPair "client.crt"
                                        "client.key"] |};
     hc_Transport := DefaultTransport |}.

(** That client as the HTTP/2 library of the sample world leaves it. *)
Definition http2_host_client : HostClient :=
  {| Addr := "localhost:443"; IsTLS := true; MaxConns := 1;
     hc_ReadTimeout := 5 * sample.second;
     hc_WriteTimeout := 5 * sample.second;
     DisableHeaderNamesNormalizing := true;
     TLSConfig := TLSConfig mtls_host_client;
     hc_Transport := HTTP2Transport |}.

(** A configuration with a header that has no colon, after one that has. *)
Definition config_with_headers (headers : list string) : config.Config :=
  config.NewConfig spec.never_done "http://localhost:8080/path" "" "" false
    10 2 0 false (5 * sample.second) (5 * sample.second) "GET" false
    sample.second "" "" "" "" "" "" "" "" headers "" "" "fasthttp".

End sample2.

(* ================================================================== *)
(** * Properties *)

(** ** The matcher computes the language of the pattern *)

Section RegexpFacts.
Import regexp.

Lemma matches_Void s : ¬ matches Void s.
Proof. inversion 1. Qed.

Lemma matches_Eps s : matches Eps s ↔ s = [].
Proof. split; [by inversion 1 | intros ->; constructor]. Qed.

Lemma matches_Class p s : matches (Class p) s ↔ ∃ a, s = [a] ∧ p a = true.
Proof.
  split.
  - inversion 1; eauto.
  - intros (a & -> & Hp). by constructor.
Qed.

Lemma matches_Seq r1 r2 s :
  matches (Seq r1 r2) s ↔
  ∃ s1 s2, s = s1 ++ s2 ∧ matches r1 s1 ∧ matches r2 s2.
Proof.
  split.
  - inversion 1; subst; eauto.
  - intros (s1 & s2 & -> & H1 & H2). by constructor.
Qed.

Lemma matches_Alt r1 r2 s :
  matches (Alt r1 r2) s ↔ matches r1 s ∨ matches r2 s.
Proof.
  split.
  - inversion 1; subst; eauto.
  - intros [H | H]; [by apply m_alt_l | by apply m_alt_r].
Qed.

Lemma is_void_true r : is_void r = true → r = Void.
Proof. by destruct r. Qed.

Lemma matches_seq' r1 r2 s :
  matches (seq' r1 r2) s ↔ matches (Seq r1 r2) s.
Proof.
  unfold seq'. destruct (is_void r1) eqn:Hv; [|done].
  apply is_void_true in Hv as ->. rewrite matches_Seq. split.
  - by intros ?%matches_Void.
  - by intros (? & ? & _ & ?%matches_Void & _).
Qed.

Lemma matches_alt' r1 r2 s :
  matches (alt' r1 r2) s ↔ matches (Alt r1 r2) s.
Proof.
  unfold alt'. rewrite matches_Alt.
  destruct (is_void r1) eqn:Hv1.
  { apply is_void_true in Hv1 as ->. split; [by right|].
    by intros [?%matches_Void|]. }
  destruct (is_void r2) eqn:Hv2.
  { apply is_void_true in Hv2 as ->. split; [by left|].
    by intros [|?%matches_Void]. }
  by rewrite matches_Alt.
Qed.

Lemma nullable_matches r : nullable r = true ↔ matches r [].
Proof.
  induction r as [| |p|r1 IH1 r2 IH2|r1 IH1 r2 IH2|r IH]; simpl.
  - split; [done | by intros ?%matches_Void].
  - split; [constructor | done].
  - split; [done | by inversion 1].
  - rewrite andb_true_iff, IH1, IH2, matches_Seq. split.
    + intros [H1 H2]. by exists [], [].
    + intros (s1 & s2 & Hs & H1 & H2).
      symmetry in Hs. apply app_eq_nil in Hs as [-> ->]. done.
  - by rewrite orb_true_iff, IH1, IH2, matches_Alt.
  - split; [constructor | done].
Qed.

(** A non-empty match of [r*] starts with a non-empty match of [r]. *)
Lemma matches_Star_cons r a s :
  matches (Star r) (a :: s) →
  ∃ s1 s2, s = s1 ++ s2 ∧ matches r (a :: s1) ∧ matches (Star r) s2.
Proof.
  intros H. remember (Star r) as r' eqn:Hr. remember (a :: s) as t eqn:Ht.
  induction H as [| | | | | |r0 s1 s2 H1 _ H2 IH2]; try discriminate.
  injection Hr as ->. destruct s1 as [|b s1]; simpl in Ht.
  - by apply IH2.
  - injection Ht as -> <-. eauto.
Qed.

Lemma matches_deriv a r s : matches (deriv a r) s ↔ matches r (a :: s).
Proof.
  revert s.
  induction r as [| |p|r1 IH1 r2 IH2|r1 IH1 r2 IH2|r IH]; intros s; simpl.
  - split; by intros ?%matches_Void.
  - split; [by intros ?%matches_Void | by inversion 1].
  - destruct (p a) eqn:Hp.
    + rewrite matches_Eps, matches_Class. split.
      * intros ->. eauto.
      * by intros (b & [= -> ->] & _).
    + rewrite matches_Class. split; [by intros ?%matches_Void|].
      intros (b & [= -> ->] & ?). congruence.
  - assert (Hseq : ∀ t, matches (seq' (deriv a r1) r2) t ↔
                        ∃ s1 s2, t = s1 ++ s2 ∧ matches r1 (a :: s1)
                                 ∧ matches r2 s2).
    { intros t. rewrite matches_seq', matches_Seq.
      by setoid_rewrite IH1. }
    rewrite (matches_Seq r1 r2 (a :: s)).
    destruct (nullable r1) eqn:Hn.
    + rewrite matches_alt', matches_Alt, Hseq, IH2. split.
      * intros [(s1 & s2 & -> & H1 & H2) | H2].
        -- by exists (a :: s1), s2.
        -- exists [], (a :: s). by rewrite <- nullable_matches.
      * intros (s1 & s2 & Hs & H1 & H2). destruct s1 as [|b s1].
        -- simpl in Hs. subst s2. by right.
        -- injection Hs as <- ->. left. eauto.
    + rewrite Hseq. split.
      * intros (s1 & s2 & -> & H1 & H2). by exists (a :: s1), s2.
      * intros (s1 & s2 & Hs & H1 & H2). destruct s1 as [|b s1].
        -- apply nullable_matches in H1. congruence.
        -- injection Hs as <- ->. eauto.
  - by rewrite matches_alt', !matches_Alt, IH1, IH2.
  - rewrite matches_seq', matches_Seq. split.
    + intros (s1 & s2 & -> & H1 & H2). apply IH in H1.
      by apply (m_star_app r (a :: s1) s2).
    + intros (s1 & s2 & -> & H1 & H2)%matches_Star_cons.
      exists s1, s2. by rewrite IH.
Qed.

Lemma full_match_matches r s : full_match r s = true ↔ matches r s.
Proof.
  unfold full_match. revert r.
  induction s as [|a s IH]; intros r; simpl.
  - apply nullable_matches.
  - by rewrite IH, matches_deriv.
Qed.

Lemma matches_Star_Class p s :
  matches (Star (Class p)) s ↔ forallb p s = true.
Proof.
  split.
  - intros H. remember (Star (Class p)) as r eqn:Hr.
    induction H as [| | | | | |r0 s1 s2 H1 _ H2 IH2]; try discriminate.
    + done.
    + injection Hr as ->. apply matches_Class in H1 as (a & -> & Hp).
      simpl. rewrite Hp. by apply IH2.
  - induction s as [|a s IH]; simpl; [constructor|].
    intros [Hp Hs]%andb_true_iff.
    apply (m_star_app (Class p) [a] s); [by constructor | by apply IH].
Qed.

Lemma matches_Star_AnyChar s : matches (Star AnyChar) s.
Proof. apply matches_Star_Class. by induction s. Qed.

Lemma matches_Lit str s :
  matches (Lit str) s ↔ s = list_ascii_of_string str.
Proof.
  revert s. induction str as [|a str IH]; intros s; simpl.
  - apply matches_Eps.
  - rewrite matches_Seq. split.
    + intros (s1 & s2 & -> & (b & -> & Hb)%matches_Class & H2%IH).
      apply Ascii.eqb_eq in Hb. by subst.
    + intros ->. exists [a], (list_ascii_of_string str).
      split_and!; [done | | by apply IH].
      apply matches_Class. exists a. by rewrite Ascii.eqb_refl.
Qed.

Lemma matches_Chr a s : matches (Chr a) s ↔ s = [a].
Proof.
  unfold Chr. rewrite matches_Class. split.
  - intros (b & -> & Hb). apply Ascii.eqb_eq in Hb. by subst.
  - intros ->. exists a. by rewrite Ascii.eqb_refl.
Qed.

(** [MatchString] looks for a match anywhere in the subject. *)
Lemma MatchString_spec r str :
  MatchString r str = true ↔
  ∃ pre m post,
    list_ascii_of_string str = pre ++ m ++ post ∧ matches r m.
Proof.
  unfold MatchString. rewrite full_match_matches, matches_Seq. split.
  - intros (pre & t & Hs & _ & (m & post & -> & Hm & _)%matches_Seq).
    eauto.
  - intros (pre & m & post & Hs & Hm). exists pre, (m ++ post).
    split_and!; [done | apply matches_Star_AnyChar |].
    apply matches_Seq. exists m, post.
    split_and!; [done | done | apply matches_Star_AnyChar].
Qed.

End RegexpFacts.

(** ** [Validate] is the first failing test, and assigns [SendJWT] only *)

Section ValidateFacts.
Import config spec.
Local Open Scope string_scope.
Local Open Scope Z_scope.
Variable w : World.

Lemma check_headers_eq hs c :
  check_headers hs c =
  (res (option_map ErrHeaderNoColon
          (List.find (fun h => negb (Contains h ":")) hs)), c).
Proof.
  induction hs as [|h hs IH]; simpl; [done|].
  by destruct (negb (Contains h ":")).
Qed.

Lemma bind_check (s : M unit) (k : unit -> M unit) c o :
  s c = (res o, c) →
  bind s k c = match o with Some e => (inl e, c) | None => k tt c end.
Proof. unfold bind. intros ->. by destruct o. Qed.

Lemma set_SendJWT_id c : set_SendJWT (SendJWT c) c = c.
Proof. by destruct c. Qed.

Lemma first_error_Some e l : first_error (Some e :: l) = Some e.
Proof. done. Qed.

Lemma first_error_None l : first_error (None :: l) = first_error l.
Proof. done. Qed.

Lemma first_error_elem l e : first_error l = Some e → In (Some e) l.
Proof.
  induction l as [|[e'|] l IH]; simpl; [done| |].
  - intros [= ->]. by left.
  - intros H. right. by apply IH.
Qed.

Lemma first_error_all_None l :
  first_error l = None ↔ ∀ o, In o l → o = None.
Proof.
  induction l as [|[e'|] l IH]; simpl.
  - split; [by intros _ o [] | done].
  - split; [done|]. intros H. by specialize (H (Some e') (or_introl eq_refl)).
  - rewrite IH. split.
    + intros H o [<-|Ho]; [done | by apply H].
    + intros H o Ho. apply H. by right.
Qed.

Lemma jwt_key_block (k : unit -> M unit) c :
  bind (recv c =>
          if negb (String.eqb (JwtKey c) "")
          then
            must_open w (JwtKey c) ErrJwtKeyNotExist ErrJwtKeyCheck ;;
            (recv c => If (ReqTarget c =? 0) Return ErrJwtNeedsReqs) ;;
            assign_SendJWT true
          else ret tt)%go k c
  = match chk_jwt_key w c with
    | Some e => (inl e, c)
    | None => k tt (if String.eqb (JwtKey c) "" then c
                    else set_SendJWT true c)
    end.
Proof.
  unfold bind, receiver, must_open, return_err, ret, assign_SendJWT,
    chk_jwt_key, opened_or.
  destruct (String.eqb (JwtKey c) ""); cbn [negb]; [done|].
  destruct (OpenFile w (JwtKey c)); [|done..].
  by destruct (ReqTarget c =? 0).
Qed.

Lemma jwt_file_block (k : unit -> M unit) c :
  bind (recv c =>
          if negb (String.eqb (JwtsFilename c) "")
          then
            must_open w (JwtsFilename c)
                      (ErrJwtFileNotExist (JwtsFilename c))
                      ErrJwtFileCheck ;;
            (recv c => If (ReqTarget c =? 0) Return ErrJwtNeedsReqs) ;;
            assign_SendJWT true
          else ret tt)%go k c
  = match chk_jwt_file w c with
    | Some e => (inl e, c)
    | None => k tt (if String.eqb (JwtsFilename c) "" then c
                    else set_SendJWT true c)
    end.
Proof.
  unfold bind, receiver, must_open, return_err, ret, assign_SendJWT,
    chk_jwt_file, opened_or.
  destruct (String.eqb (JwtsFilename c) ""); cbn [negb]; [done|].
  destruct (OpenFile w (JwtsFilename c)); [|done..].
  by destruct (ReqTarget c =? 0).
Qed.

(** Where the assignment to [SendJWT] happens, by the tests. *)
Lemma SendJWT_assigned_tests c :
  SendJWT_assigned w c =
  match first_error (checks_before_jwt w c) with
  | Some _ => false
  | None =>
      match chk_jwt_key w c with
      | Some _ => false
      | None => negb (String.eqb (JwtKey c) "")
                || match chk_jwt_file w c with
                   | Some _ => false
                   | None => negb (String.eqb (JwtsFilename c) "")
                   end
      end
  end.
Proof.
  unfold SendJWT_assigned, reaches_jwt_blocks, token_file_accepted,
    chk_jwt_key, chk_jwt_file, opened_or.
  destruct (first_error (checks_before_jwt w c)); [done|].
  cbn [andb].
  destruct (String.eqb (JwtKey c) ""), (String.eqb (JwtsFilename c) "");
    cbn [negb andb orb]; try done.
  all: repeat match goal with
              | |- context [OpenFile w ?p] => destruct (OpenFile w p)
              end; cbn [andb orb]; try done.
  all: by destruct (ReqTarget c =? 0).
Qed.

(** A statement without assignment does what its test says. *)
Ltac stmt :=
  unfold receiver, return_err, ret, must_open, bind,
    chk_uri, chk_limit_no_duration, chk_limit_both_budgets, chk_conns,
    chk_format, chk_mtls_key, chk_mtls_cert, chk_jwt_header,
    chk_jwt_source, chk_headers, chk_body, chk_ticker, chk_method,
    chk_write, chk_read, chk_budget, chk_claims, opened_or;
  cbn [set_SendJWT ReqURI Conns ReqTarget Duration MTLSKey MTLSCert
       JwtsFilename JwtKey JwtHeader Headers BodyFile VerboseTicker Method
       WriteTimeout ReadTimeout JwtCustomClaimsJSON];
  repeat first
    [ rewrite check_headers_eq
    | match goal with
      | |- context [match ?x with _ => _ end] =>
          lazymatch x with
          | context [match _ with _ => _ end] => fail
          | _ => destruct x
          end
      end ];
  reflexivity.

(** One such statement at the head of the body: split on its test. *)
Ltac pure_step :=
  lazymatch goal with
  | |- bind ?s ?k ?c = (res (first_error (?o :: ?l)), ?cfg) =>
      let Hs := fresh "Hs" in
      assert (Hs : s c = (res o, c)) by stmt;
      rewrite (bind_check s k c o Hs); clear Hs;
      let E := fresh "E" in
      destruct o eqn:E;
      [ rewrite first_error_Some | rewrite first_error_None ]
  end.

Ltac use_tests :=
  repeat match goal with
         | H : ?chk = _ |- context [?chk] => rewrite H
         end;
  cbn [first_error]; rewrite ?orb_false_r.

Lemma Validate_body_spec c :
  Validate_body w c =
  (res (first_error (checks w c)),
   set_SendJWT (SendJWT c || SendJWT_assigned w c) c).
Proof.
  pose proof (SendJWT_assigned_tests c) as Hasg.
  unfold Validate_body, checks, checks_before_jwt, checks_after_jwt in *.
  cbn [app].
  do 9 (pure_step; [ rewrite Hasg; use_tests; by rewrite set_SendJWT_id | ]).
  rewrite jwt_key_block.
  destruct (chk_jwt_key w c) eqn:EK;
    [ rewrite first_error_Some, Hasg; use_tests;
      by rewrite set_SendJWT_id
    | rewrite first_error_None ].
  rewrite jwt_file_block.
  assert (chk_jwt_file w (if String.eqb (JwtKey c) "" then c
                          else set_SendJWT true c) = chk_jwt_file w c)
    as -> by (by destruct (String.eqb (JwtKey c) "")).
  destruct (chk_jwt_file w c) eqn:EF.
  { rewrite first_error_Some, Hasg. use_tests.
    destruct (String.eqb (JwtKey c) ""); cbn [negb orb];
      by rewrite ?orb_false_r, ?orb_true_r, ?set_SendJWT_id. }
  rewrite first_error_None.
  assert (SendJWT_assigned w c =
          negb (String.eqb (JwtKey c) "")
          || negb (String.eqb (JwtsFilename c) "")) as ->
    by (rewrite Hasg; by use_tests).
  clear Hasg.
  destruct (String.eqb (JwtKey c) ""); cbn [set_SendJWT JwtsFilename];
    destruct (String.eqb (JwtsFilename c) "");
    cbn [negb orb]; rewrite ?orb_false_r, ?orb_true_r.
  all: do 8 (pure_step; [ by rewrite ?set_SendJWT_id | ]).
  all: by rewrite ?set_SendJWT_id.
Qed.

(** [Validate] returns the first error of its tests, in the order of
    the source, and leaves the receiver as it was but for [SendJWT]. *)
Lemma Validate_spec c :
  Validate w c =
  (first_error (checks w c),
   set_SendJWT (SendJWT c || SendJWT_assigned w c) c).
Proof.
  unfold Validate. rewrite Validate_body_spec.
  by destruct (first_error (checks w c)).
Qed.

End ValidateFacts.

(** Unfold the tests in a hypothesis and split on what they examine. *)
Ltac open_check H :=
  unfold spec.chk_uri, spec.chk_limit_no_duration,
    spec.chk_limit_both_budgets, spec.chk_conns, spec.chk_format,
    spec.chk_mtls_key, spec.chk_mtls_cert, spec.chk_jwt_header,
    spec.chk_jwt_source, spec.chk_jwt_key, spec.chk_jwt_file,
    spec.chk_headers, spec.chk_body, spec.chk_ticker, spec.chk_method,
    spec.chk_write, spec.chk_read, spec.chk_budget, spec.chk_claims,
    spec.opened_or, option_map in H;
  repeat case_match; try congruence.

(** ** The rule on connections and requests *)

Section ConnectionLimit.
Import config spec.
Local Open Scope string_scope.
Local Open Scope Z_scope.

Lemma int64_of_uint_small n :
  0 ≤ n < 2 ^ 63 → GoInt.int64_of_uint n = n.
Proof.
  intros Hn. unfold GoInt.int64_of_uint.
  rewrite Z.mod_small by lia.
  destruct (Z.ltb_spec n (2 ^ 63)); [done | lia].
Qed.

Lemma if_Some_iff (b : bool) (e : error) :
  (if b then Some e else None) = Some e ↔ b = true.
Proof. by destruct b. Qed.

(** [errConnLimit] comes from one of the two tests on connections, and
    then the request URI has parsed. *)
Lemma errConnLimit_source w c :
  first_error (checks w c) = Some errConnLimit ↔
  chk_uri w c = None ∧
  (chk_limit_no_duration c = Some errConnLimit
   ∨ chk_limit_both_budgets c = Some errConnLimit).
Proof.
  unfold checks, checks_before_jwt, checks_after_jwt. cbn [app].
  split.
  - intros H.
    destruct (chk_uri w c) eqn:E.
    { rewrite first_error_Some in H. injection H as ->. open_check E. }
    rewrite first_error_None in H. split; [done|].
    destruct (chk_limit_no_duration c) eqn:E1.
    { rewrite first_error_Some in H. left. congruence. }
    rewrite first_error_None in H.
    destruct (chk_limit_both_budgets c) eqn:E2.
    { rewrite first_error_Some in H. right. congruence. }
    rewrite first_error_None in H.
    exfalso. apply first_error_elem in H. cbn [In] in H.
    repeat (destruct H as [H|H]; [by open_check H|]). done.
  - intros [-> H]. rewrite first_error_None.
    destruct H as [-> | H]; [done|].
    destruct (chk_limit_no_duration c) eqn:E; [|by rewrite first_error_None, H].
    by open_check E.
Qed.

(** C3 (as amended).  For a connection count below 2^63 (where the
    conversion to [int64] is exact): [Validate] returns [errConnLimit]
    exactly when the request URI parses and either C > R and D = 0, or
    C > R and R <> 0 and D <> 0.  Whatever the count: a configuration
    with D <> 0 and R = 0 never gets [errConnLimit], and one with C = 0
    is always rejected. *)
Theorem Validate_connection_limit (w : World) (c : Config) :
  (0 ≤ Conns c < 2 ^ 63 →
   (fst (Validate w c) = Some errConnLimit ↔
    (∃ u, ParseRequestURI w (ReqURI c) = inl u)
    ∧ (Conns c > ReqTarget c ∧ Duration c = 0
       ∨ Conns c > ReqTarget c ∧ ReqTarget c ≠ 0 ∧ Duration c ≠ 0)))
  ∧ (Duration c ≠ 0 → ReqTarget c = 0 →
     fst (Validate w c) ≠ Some errConnLimit)
  ∧ (Conns c = 0 → fst (Validate w c) ≠ None).
Proof.
  rewrite Validate_spec. cbn [fst]. split_and!.
  - intros Hc. rewrite errConnLimit_source.
    unfold chk_uri, chk_limit_no_duration, chk_limit_both_budgets.
    rewrite int64_of_uint_small by done.
    rewrite !if_Some_iff, !andb_true_iff, !negb_true_iff, Z.gtb_lt,
      Z.eqb_eq, !Z.eqb_neq.
    destruct (ParseRequestURI w (ReqURI c)) as [u|err].
    + split.
      * intros [_ H]. split; [by eexists | lia].
      * intros [_ H]. split; [done | lia].
    + split; [by intros [? _] | by intros [[u ?] _]].
  - intros HD HR H. apply errConnLimit_source in H as [_ [H|H]].
    + unfold chk_limit_no_duration in H.
      destruct (Z.eqb_spec (Duration c) 0); [done|].
      by rewrite andb_false_r in H.
    + unfold chk_limit_both_budgets in H. rewrite HR in H.
      cbn [Z.eqb negb] in H. by rewrite andb_false_r in H.
  - intros HC H. rewrite first_error_all_None in H.
    assert (Hk : chk_conns c = None).
    { apply H. unfold checks, checks_before_jwt. cbn. tauto. }
    unfold chk_conns in Hk. by rewrite HC in Hk.
Qed.

(** A configuration with twenty connections for ten requests and no
    duration is refused with [errConnLimit]. *)
Lemma Validate_connection_limit_witness :
  fst (Validate sample.world
         (sample.config "http://localhost:8080/path" 10 20 0 false
            sample.second "" "" ""))
  = Some errConnLimit.
Proof.
  apply (proj1 (Validate_connection_limit sample.world
                  (sample.config "http://localhost:8080/path" 10 20 0
                     false sample.second "" "" ""))).
  - cbn. lia.
  - split; [by eexists|]. left. cbn. lia.
Defined.

(** C3 (as stated) fails in both directions.  Where the request URI
    does not parse, two connections for one request and no duration get
    the error of the URI, not [errConnLimit].  And the tests compare with
    zero by [!=]: one connection, a request target of -1 and a duration of
    one second get [errConnLimit], though neither D = 0 nor R > 0. *)
Lemma connection_limit_after_uri :
  let c := sample.config "" 1 2 0 false sample.second "" "" "" in
  let c' := sample.config "http://localhost:8080/path" (-1) 1
              sample.second false sample.second "" "" "" in
  fst (Validate sample.world c) = Some (ErrInvalidURI "empty url")
  ∧ ¬ (fst (Validate sample.world c) = Some errConnLimit ↔
       (Conns c > ReqTarget c ∧ Duration c = 0)
       ∨ (Conns c > ReqTarget c ∧ ReqTarget c > 0 ∧ Duration c > 0))
  ∧ fst (Validate sample.world c') = Some errConnLimit
  ∧ ¬ (fst (Validate sample.world c') = Some errConnLimit ↔
       (Conns c' > ReqTarget c' ∧ Duration c' = 0)
       ∨ (Conns c' > ReqTarget c' ∧ ReqTarget c' > 0 ∧ Duration c' > 0)).
Proof.
  split_and!; [by vm_compute | | by vm_compute |].
  - intros [_ H].
    assert (Hc : fst (Validate sample.world
                   (sample.config "" 1 2 0 false sample.second "" "" ""))
                 = Some errConnLimit).
    { apply H. left. cbn. lia. }
    by vm_compute in Hc.
  - intros [H _].
    assert (Hc : fst (Validate sample.world
                   (sample.config "http://localhost:8080/path" (-1) 1
                      sample.second false sample.second "" "" ""))
                 = Some errConnLimit) by (by vm_compute).
    apply H in Hc.
    destruct Hc as [[_ Hd]|(_ & Hr & _)];
      [by vm_compute in Hd | by vm_compute in Hr].
Qed.

End ConnectionLimit.

(** ** The rule on the form of the request URI *)

Section URIFormat.
Import config spec regexp.
Local Open Scope string_scope.
Local Open Scope Z_scope.

Lemma list_ascii_of_string_app (s1 s2 : string) :
  list_ascii_of_string (s1 ++ s2)
  = (list_ascii_of_string s1 ++ list_ascii_of_string s2)%list.
Proof. induction s1 as [|a s1 IH]; simpl; [done | by rewrite IH]. Qed.

Lemma list_ascii_of_string_inj (s1 s2 : string) :
  list_ascii_of_string s1 = list_ascii_of_string s2 → s1 = s2.
Proof.
  intros H. rewrite <- (string_of_list_ascii_of_string s1),
              <- (string_of_list_ascii_of_string s2). by rewrite H.
Qed.

Lemma matches_Plus_Class p s :
  matches (Plus (Class p)) s ↔
  ∃ a s', s = a :: s' ∧ p a = true ∧ forallb p s' = true.
Proof.
  unfold Plus. rewrite matches_Seq. split.
  - intros (s1 & s2 & -> & (a & -> & Ha)%matches_Class
              & Hs%matches_Star_Class). eauto.
  - intros (a & s' & -> & Ha & Hs). exists [a], s'.
    split_and!; [done | by apply m_class | by apply matches_Star_Class].
Qed.

(** The words of the pattern of the source. *)
Lemma matches_regEx m :
  matches regEx m ↔
  ∃ sch mid d ds,
    m = (list_ascii_of_string "http" ++ sch ++ list_ascii_of_string "://"
         ++ mid ++ ":"%char :: d :: ds)%list
    ∧ (sch = [] ∨ sch = ["s"%char])
    ∧ forallb (fun a => negb (is_newline a)) mid = true
    ∧ is_digit d = true ∧ forallb is_digit ds = true.
Proof.
  unfold regEx. split.
  - intros (? & ? & -> & ->%matches_Lit & H)%matches_Seq.
    apply matches_Seq in H as (sch & ? & -> & Hsch & H).
    apply matches_Alt in Hsch.
    rewrite matches_Chr, matches_Eps in Hsch.
    apply matches_Seq in H as (? & ? & -> & ->%matches_Chr & H).
    apply matches_Seq in H as (? & ? & -> & ->%matches_Chr & H).
    apply matches_Seq in H as (? & ? & -> & ->%matches_Chr & H).
    apply matches_Seq in H as (mid & ? & -> & Hmid%matches_Star_Class & H).
    apply matches_Seq in H as (? & ? & -> & ->%matches_Chr & H).
    apply matches_Plus_Class in H as (d & ds & -> & Hd & Hds).
    exists sch, mid, d, ds. split_and!; try done.
    destruct Hsch as [->| ->]; auto.
  - intros (sch & mid & d & ds & -> & Hsch & Hmid & Hd & Hds).
    apply m_seq; [by apply matches_Lit|].
    apply m_seq.
    { apply matches_Alt. rewrite matches_Chr, matches_Eps.
      destruct Hsch as [->| ->]; auto. }
    apply (m_seq _ _ [":"%char]); [by apply matches_Chr|].
    apply (m_seq _ _ ["/"%char]); [by apply matches_Chr|].
    apply (m_seq _ _ ["/"%char]); [by apply matches_Chr|].
    apply m_seq; [by apply matches_Star_Class|].
    apply (m_seq _ _ [":"%char]); [by apply matches_Chr|].
    apply matches_Plus_Class. eauto.
Qed.

(** The pattern of the source matches the subjects that hold a scheme,
    [://], and further on a colon followed by a digit. *)
Lemma MatchString_regExHostURI (s : string) :
  MatchString regExHostURI s = true ↔ has_scheme_and_port s.
Proof.
  unfold regExHostURI, has_scheme_and_port.
  rewrite MatchString_spec. setoid_rewrite matches_regEx. split.
  - intros (pre & m & post & Hs & sch & mid & d & ds & -> & Hsch & Hmid
            & Hd & Hds).
    exists (string_of_list_ascii pre), (string_of_list_ascii sch),
      (string_of_list_ascii mid), d, (string_of_list_ascii (ds ++ post)).
    split_and!; [| |by rewrite list_ascii_of_string_of_list_ascii|done].
    + apply list_ascii_of_string_inj. rewrite Hs.
      rewrite !list_ascii_of_string_app. cbn [list_ascii_of_string].
      rewrite !list_ascii_of_string_of_list_ascii.
      by rewrite <- !app_assoc.
    + destruct Hsch as [->| ->]; auto.
  - intros (pre & sch & mid & d & post & -> & Hsch & Hmid & Hd).
    exists (list_ascii_of_string pre),
      (list_ascii_of_string "http" ++ list_ascii_of_string sch
       ++ list_ascii_of_string "://" ++ list_ascii_of_string mid
       ++ [":"%char; d])%list,
      (list_ascii_of_string post).
    split.
    + rewrite !list_ascii_of_string_app. cbn [list_ascii_of_string].
      by rewrite <- !app_assoc.
    + exists (list_ascii_of_string sch), (list_ascii_of_string mid), d, [].
      split_and!; try done.
      destruct Hsch as [->| ->]; auto.
Qed.

Lemma connection_tests_pass_spec c :
  connection_tests_pass c = true ↔
  chk_limit_no_duration c = None ∧ chk_limit_both_budgets c = None
  ∧ chk_conns c = None.
Proof.
  unfold connection_tests_pass, chk_limit_no_duration,
    chk_limit_both_budgets, chk_conns.
  rewrite !andb_true_iff, !negb_true_iff.
  destruct (_ && (Duration c =? 0)), (_ && negb (Duration c =? 0)),
    (Conns c =? 0); cbn; intuition congruence.
Qed.

(** C4 (as amended).  [Validate] objects to the request URI exactly when
    it does not parse, or when, the tests on connections passed, it holds
    no match of the pattern of the source: no [http://] or [https://]
    followed, further on the same line, by a colon and a digit.  A
    configuration that [Validate] accepts has a request URI that parses
    and holds such a match: the port is required. *)
Theorem Validate_request_uri (w : World) (c : Config) :
  (uri_accepted (fst (Validate w c)) = false ↔
   (∃ err, ParseRequestURI w (ReqURI c) = inr err)
   ∨ (connection_tests_pass c = true
      ∧ ¬ has_scheme_and_port (ReqURI c)))
  ∧ (fst (Validate w c) = None →
     (∃ u, ParseRequestURI w (ReqURI c) = inl u)
     ∧ has_scheme_and_port (ReqURI c)).
Proof.
  rewrite Validate_spec. cbn [fst].
  rewrite connection_tests_pass_spec, <- MatchString_regExHostURI.
  unfold checks, checks_before_jwt, checks_after_jwt. cbn [app].
  unfold chk_uri at 1 2.
  destruct (ParseRequestURI w (ReqURI c)) as [u|err].
  2:{ rewrite first_error_Some. cbn. split; [|done].
      split; [intros _; left; by eexists | done]. }
  rewrite first_error_None.
  destruct (chk_limit_no_duration c) eqn:E1.
  { rewrite first_error_Some. split; [|done].
    split; [intros H; open_check E1; by simplify_eq/= | intros [[? ?]|[(? & _) _]]; done]. }
  rewrite first_error_None.
  destruct (chk_limit_both_budgets c) eqn:E2.
  { rewrite first_error_Some. split; [|done].
    split; [intros H; open_check E2; by simplify_eq/= | intros [[? ?]|[(_ & ? & _) _]]; done]. }
  rewrite first_error_None.
  destruct (chk_conns c) eqn:E3.
  { rewrite first_error_Some. split; [|done].
    split; [intros H; open_check E3; by simplify_eq/= | intros [[? ?]|[(_ & _ & ?) _]]; done]. }
  rewrite first_error_None.
  unfold chk_format at 1 2.
  destruct (MatchString regExHostURI (ReqURI c)); cbn [negb].
  2:{ rewrite first_error_Some. cbn. split; [|done].
      split; [intros _; right; split; [done | congruence] | done]. }
  rewrite first_error_None. split.
  - split; [|intros [[? ?]|[_ ?]]; done].
    intros H. exfalso.
    match type of H with
    | uri_accepted (first_error ?l) = false =>
        destruct (first_error l) as [e|] eqn:E; [|done]
    end.
    apply first_error_elem in E. cbn [In] in E.
    repeat (destruct E as [E|E];
            [open_check E; by simplify_eq/= |]).
    done.
  - intros _. split; [by eexists | done].
Qed.

(** A configuration that [Validate] accepts: its request URI parses and
    names a port. *)
Lemma Validate_request_uri_witness :
  (∃ u, ParseRequestURI sample.world "http://example.com:8080/path"
        = inl u)
  ∧ has_scheme_and_port "http://example.com:8080/path".
Proof.
  apply (proj2 (Validate_request_uri sample.world
                  (sample.config "http://example.com:8080/path" 10 2 0
                     false sample.second "" "" ""))).
  reflexivity.
Defined.

(** C4 (as stated) fails on a well-formed URI without a port:
    [http://example.com/path] parses and matches the pattern of the
    specification, the rest of the configuration is in order (with the
    port 8080 it is accepted), and [Validate] returns the error on the
    format of the URI. *)
Lemma uri_without_port_rejected :
  let c := sample.config "http://example.com/path" 10 2 0 false
             sample.second "" "" "" in
  fst (Validate sample.world c)
  = Some (ErrURLFormat "http://example.com/path")
  ∧ fst (Validate sample.world
           (sample.config "http://example.com:8080/path" 10 2 0 false
              sample.second "" "" "")) = None
  ∧ ¬ (uri_accepted (fst (Validate sample.world c)) = true ↔
       (∃ u, ParseRequestURI sample.world (ReqURI c) = inl u)
       ∧ matches_uri_pattern (ReqURI c) = true).
Proof.
  split_and!; [by vm_compute | by vm_compute |].
  intros [_ H].
  assert (Hc : uri_accepted
                 (fst (Validate sample.world
                         (sample.config "http://example.com/path" 10 2 0
                            false sample.second "" "" ""))) = true).
  { apply H. split; [by eexists | by vm_compute]. }
  by vm_compute in Hc.
Qed.

End URIFormat.

(** ** Timeouts and the ticker of the verbose mode *)

Section Timeouts.
Import config spec.
Local Open Scope string_scope.
Local Open Scope Z_scope.

(** A test that fails makes [Validate] fail. *)
Lemma Validate_fails_on w c o e :
  In o (checks w c) → o = Some e → fst (Validate w c) ≠ None.
Proof.
  intros Hin -> H. rewrite Validate_spec in H. cbn [fst] in H.
  rewrite first_error_all_None in H. by specialize (H _ Hin).
Qed.

(** The tests do not read [Verbose]. *)
Lemma checks_with_Verbose w b c : checks w (with_Verbose b c) = checks w c.
Proof. reflexivity. Qed.

(** C6 (as amended).  [Validate] rejects a zero read timeout, a zero
    write timeout and a zero ticker interval for every configuration;
    the flag [Verbose] has no part in its verdict. *)
Theorem Validate_timeouts_and_ticker (w : World) (c : Config) :
  (ReadTimeout c = 0 → fst (Validate w c) ≠ None)
  ∧ (WriteTimeout c = 0 → fst (Validate w c) ≠ None)
  ∧ (VerboseTicker c = 0 → fst (Validate w c) ≠ None)
  ∧ (∀ b, fst (Validate w (with_Verbose b c)) = fst (Validate w c)).
Proof.
  split_and!.
  - intros H. apply (Validate_fails_on w c (chk_read c) ErrReadTimeoutZero).
    + unfold checks, checks_before_jwt, checks_after_jwt. cbn. tauto.
    + unfold chk_read. by rewrite H.
  - intros H.
    apply (Validate_fails_on w c (chk_write c) ErrWriteTimeoutZero).
    + unfold checks, checks_before_jwt, checks_after_jwt. cbn. tauto.
    + unfold chk_write. by rewrite H.
  - intros H. apply (Validate_fails_on w c (chk_ticker c) ErrTickerZero).
    + unfold checks, checks_before_jwt, checks_after_jwt. cbn. tauto.
    + unfold chk_ticker. by rewrite H.
  - intros b. by rewrite !Validate_spec, checks_with_Verbose.
Qed.

(** A configuration that is not verbose and has no ticker interval is
    rejected. *)
Lemma Validate_timeouts_and_ticker_witness :
  fst (Validate sample.world
         (sample.config "http://localhost:8080/path" 10 2 0 false 0
            "" "" "")) ≠ None.
Proof.
  apply (proj1 (proj2 (proj2
           (Validate_timeouts_and_ticker sample.world
              (sample.config "http://localhost:8080/path" 10 2 0 false 0
                 "" "" ""))))).
  reflexivity.
Defined.

(** C6 (as stated) fails: a configuration that is not verbose and meets
    every other rule (with a ticker interval of one second it is
    accepted) is rejected for its zero ticker interval. *)
Lemma zero_ticker_rejected_without_verbose :
  let c := sample.config "http://localhost:8080/path" 10 2 0 false 0
             "" "" "" in
  Verbose c = false ∧ VerboseTicker c = 0
  ∧ fst (Validate sample.world
           (sample.config "http://localhost:8080/path" 10 2 0 false
              sample.second "" "" "")) = None
  ∧ fst (Validate sample.world c) = Some ErrTickerZero.
Proof. by vm_compute. Qed.

End Timeouts.

(** ** The token rules and the assignment to [SendJWT] *)

Section Tokens.
Import config spec.
Local Open Scope string_scope.
Local Open Scope Z_scope.

Lemma eqb_empty_false (s : string) : s ≠ "" ↔ String.eqb s "" = false.
Proof. by rewrite String.eqb_neq. Qed.

Lemma first_error_app l1 l2 :
  first_error (l1 ++ l2) =
  match first_error l1 with Some e => Some e | None => first_error l2 end.
Proof. induction l1 as [|[e|] l1 IH]; simpl; done. Qed.

(** An error of a token block is an error of the token rules, and a
    token block fails on a file that does not open. *)
Lemma chk_jwt_key_error (w : World) (c : Config) (e : error) :
  chk_jwt_key w c = Some e → is_jwt_error e = true.
Proof.
  unfold chk_jwt_key, opened_or.
  destruct (negb _); [|done].
  destruct (OpenFile w (JwtKey c)); [|by intros [= <-]..].
  destruct (ReqTarget c =? 0); [by intros [= <-]|done].
Qed.

Lemma chk_jwt_file_error (w : World) (c : Config) (e : error) :
  chk_jwt_file w c = Some e → is_jwt_error e = true.
Proof.
  unfold chk_jwt_file, opened_or.
  destruct (negb _); [|done].
  destruct (OpenFile w (JwtsFilename c)); [|by intros [= <-]..].
  destruct (ReqTarget c =? 0); [by intros [= <-]|done].
Qed.

Lemma chk_jwt_key_not_opened (w : World) (c : Config) :
  JwtKey c ≠ "" → OpenFile w (JwtKey c) ≠ Opened →
  chk_jwt_key w c ≠ None.
Proof.
  intros HK%eqb_empty_false Ho. unfold chk_jwt_key, opened_or.
  rewrite HK. cbn [negb]. by destruct (OpenFile w (JwtKey c)).
Qed.

Lemma chk_jwt_file_not_opened (w : World) (c : Config) :
  JwtsFilename c ≠ "" → OpenFile w (JwtsFilename c) ≠ Opened →
  chk_jwt_file w c ≠ None.
Proof.
  intros HF%eqb_empty_false Ho. unfold chk_jwt_file, opened_or.
  rewrite HF. cbn [negb]. by destruct (OpenFile w (JwtsFilename c)).
Qed.

(** C7 (as amended).  [Validate] fails when a token source is configured
    and the token header is empty, when the token header is set and no
    token source is configured, and when a token source is configured
    with R = 0.  When a token source is configured, the token header is
    set, R > 0 and each file named as a source opens, an error of
    [Validate], if there is one, is not one of the token rules.  When a
    file named as a source does not open, be it missing or there and not
    readable, [Validate] fails, and on one of the token rules if the
    tests above the token blocks pass. *)
Theorem Validate_token_rules (w : World) (c : Config) :
  (JwtsFilename c ≠ "" ∨ JwtKey c ≠ "" → JwtHeader c = "" →
   fst (Validate w c) ≠ None)
  ∧ (JwtHeader c ≠ "" → JwtsFilename c = "" → JwtKey c = "" →
     fst (Validate w c) ≠ None)
  ∧ (JwtsFilename c ≠ "" ∨ JwtKey c ≠ "" → ReqTarget c = 0 →
     fst (Validate w c) ≠ None)
  ∧ (JwtsFilename c ≠ "" ∨ JwtKey c ≠ "" → JwtHeader c ≠ "" →
     ReqTarget c > 0 →
     (JwtKey c ≠ "" → OpenFile w (JwtKey c) = Opened) →
     (JwtsFilename c ≠ "" → OpenFile w (JwtsFilename c) = Opened) →
     ∀ e, fst (Validate w c) = Some e → is_jwt_error e = false)
  ∧ ((JwtKey c ≠ "" ∧ OpenFile w (JwtKey c) ≠ Opened)
     ∨ (JwtsFilename c ≠ "" ∧ OpenFile w (JwtsFilename c) ≠ Opened) →
     fst (Validate w c) ≠ None
     ∧ (reaches_jwt_blocks w c = true →
        ∃ e, fst (Validate w c) = Some e ∧ is_jwt_error e = true)).
Proof.
  split_and!.
  - intros Hsrc Hh.
    apply (Validate_fails_on w c (chk_jwt_header c) ErrEmptyJwtHeader).
    + unfold checks, checks_before_jwt. cbn. tauto.
    + unfold chk_jwt_header. rewrite Hh. cbn [String.eqb].
      rewrite !eqb_empty_false in Hsrc.
      by destruct Hsrc as [-> | ->]; rewrite ?orb_true_r.
  - intros Hh%eqb_empty_false HF HK.
    apply (Validate_fails_on w c (chk_jwt_source c) ErrEmptyJwtSource).
    + unfold checks, checks_before_jwt. cbn. tauto.
    + unfold chk_jwt_source. by rewrite Hh, HF, HK.
  - intros Hsrc HR.
    destruct (String.eqb (JwtKey c) "") eqn:HK.
    + destruct Hsrc as [HF%eqb_empty_false | HK'%eqb_empty_false];
        [|congruence].
      destruct (chk_jwt_file w c) as [e|] eqn:E.
      * apply (Validate_fails_on w c (chk_jwt_file w c) e); [|done].
        unfold checks, checks_before_jwt. cbn. tauto.
      * exfalso. unfold chk_jwt_file in E. rewrite HF, HR in E.
        cbn in E. by destruct (opened_or _ _ _ _).
    + destruct (chk_jwt_key w c) as [e|] eqn:E.
      * apply (Validate_fails_on w c (chk_jwt_key w c) e); [|done].
        unfold checks, checks_before_jwt. cbn. tauto.
      * exfalso. unfold chk_jwt_key in E. rewrite HK, HR in E.
        cbn in E. by destruct (opened_or _ _ _ _).
  - intros Hsrc Hh%eqb_empty_false HR HKo HFo e H.
    rewrite Validate_spec in H. cbn [fst] in H.
    apply first_error_elem in H.
    unfold checks, checks_before_jwt, checks_after_jwt in H.
    cbn [app In] in H.
    assert (HR0 : (ReqTarget c =? 0) = false) by (apply Z.eqb_neq; lia).
    assert (Hjh : chk_jwt_header c = None).
    { unfold chk_jwt_header. by rewrite Hh, andb_false_r. }
    assert (Hjs : chk_jwt_source c = None).
    { unfold chk_jwt_source. rewrite !eqb_empty_false in Hsrc.
      destruct Hsrc as [-> | ->];
        by rewrite ?andb_false_r, ?andb_false_l. }
    assert (Hjk : chk_jwt_key w c = None).
    { unfold chk_jwt_key, opened_or.
      destruct (String.eqb (JwtKey c) "") eqn:HK; [done|].
      apply eqb_empty_false in HK. by rewrite (HKo HK), HR0. }
    assert (Hjf : chk_jwt_file w c = None).
    { unfold chk_jwt_file, opened_or.
      destruct (String.eqb (JwtsFilename c) "") eqn:HF; [done|].
      apply eqb_empty_false in HF. by rewrite (HFo HF), HR0. }
    rewrite Hjh, Hjs, Hjk, Hjf in H.
    repeat (destruct H as [H|H];
            [try discriminate; open_check H; by simplify_eq/= |]).
    done.
  - intros Hno. rewrite Validate_spec. cbn [fst].
    unfold checks, reaches_jwt_blocks. rewrite first_error_app.
    destruct (first_error (checks_before_jwt w c)) as [e|]; [done|].
    cbn [app first_error].
    destruct (chk_jwt_key w c) as [e|] eqn:EK.
    { split; [done|]. intros _. exists e. split; [done|].
      by apply (chk_jwt_key_error w c). }
    destruct (chk_jwt_file w c) as [e|] eqn:EF.
    { split; [done|]. intros _. exists e. split; [done|].
      by apply (chk_jwt_file_error w c). }
    exfalso. destruct Hno as [[HK Ho]|[HF Ho]].
    + by apply (chk_jwt_key_not_opened w c).
    + by apply (chk_jwt_file_not_opened w c).
Qed.

(** With a token file that opens, a token header and ten requests,
    [Validate] accepts the configuration; with a zero ticker interval
    besides, it fails on the ticker, which is no token rule. *)
Lemma Validate_token_rules_witness :
  fst (Validate sample.world
         (sample.config "http://localhost:8080/path" 10 2 0 false
            sample.second "" "Authorization" "tokens.txt")) = None
  ∧ is_jwt_error ErrTickerZero = false.
Proof.
  split; [reflexivity|].
  apply (proj1 (proj2 (proj2 (proj2
           (Validate_token_rules sample.world
              (sample.config "http://localhost:8080/path" 10 2 0 false
                 0 "" "Authorization" "tokens.txt")))))).
  - by left.
  - done.
  - cbn. lia.
  - done.
  - done.
  - reflexivity.
Defined.

(** C7 (as stated) fails where the token file is there and cannot be
    opened.  With a token file, a token header and ten requests,
    [Validate] accepts the configuration when the file opens; when
    [os.OpenFile] fails on it with an error other than that the file
    does not exist (the permissions, say), the block of [JwtsFilename]
    returns its second error, one of the token rules. *)
Lemma unreadable_token_file_rejected :
  let c := sample.config "http://localhost:8080/path" 10 2 0 false
             sample.second "" "Authorization" "tokens.txt" in
  (JwtsFilename c ≠ "" ∧ JwtHeader c ≠ "" ∧ ReqTarget c > 0)
  ∧ fst (Validate sample.world c) = None
  ∧ OpenFile sample2.unreadable_world (JwtsFilename c)
    = OpenError "permission denied"
  ∧ fst (Validate sample2.unreadable_world c)
    = Some (ErrJwtFileCheck "permission denied")
  ∧ is_jwt_error (ErrJwtFileCheck "permission denied") = true.
Proof. cbv zeta. split_and!; by vm_compute. Qed.

(** C9 (as amended).  [Validate] changes no field of its receiver but
    [SendJWT], never clears [SendJWT], and sets it exactly when the
    assignment in the block of [JwtKey] or in the block of
    [JwtsFilename] is reached.  That needs a token source and every test
    above the blocks to pass; it is so whenever both blocks are behind
    and a token source is configured. *)
Theorem Validate_assigns_SendJWT_only (w : World) (c : Config) :
  snd (Validate w c)
  = set_SendJWT (SendJWT c || SendJWT_assigned w c) c
  ∧ (SendJWT_assigned w c = true →
     reaches_jwt_blocks w c = true
     ∧ (JwtKey c ≠ "" ∨ JwtsFilename c ≠ ""))
  ∧ (passes_jwt_blocks w c = true →
     JwtKey c ≠ "" ∨ JwtsFilename c ≠ "" →
     SendJWT_assigned w c = true).
Proof.
  split_and!.
  - by rewrite Validate_spec.
  - unfold SendJWT_assigned, token_file_accepted.
    rewrite !eqb_empty_false.
    destruct (reaches_jwt_blocks w c); [|done].
    destruct (String.eqb (JwtKey c) ""), (String.eqb (JwtsFilename c) "");
      cbn; intros H; (split; [done|]); auto; done.
  - rewrite SendJWT_assigned_tests. unfold passes_jwt_blocks.
    rewrite first_error_app, !eqb_empty_false.
    destruct (first_error (checks_before_jwt w c)); [done|].
    cbn [first_error].
    destruct (chk_jwt_key w c); [done|].
    destruct (chk_jwt_file w c); [done|].
    intros _ [->| ->]; by rewrite ?orb_true_r.
Qed.

(** With a key file that opens, a token header and ten requests, the
    blocks are passed and the assignment is made. *)
Lemma Validate_assigns_SendJWT_only_witness :
  SendJWT_assigned sample.world
    (sample.config "http://localhost:8080/path" 10 2 0 false
       sample.second "jwt.key" "Authorization" "") = true.
Proof.
  apply (proj2 (proj2
           (Validate_assigns_SendJWT_only sample.world
              (sample.config "http://localhost:8080/path" 10 2 0 false
                 sample.second "jwt.key" "Authorization" "")))).
  - reflexivity.
  - by left.
Defined.

(** C9 (as stated) fails: with a key file that opens and a token file
    that does not exist, [Validate] fails in the block of [JwtsFilename],
    after the block of [JwtKey] has set [SendJWT]. *)
Lemma SendJWT_set_although_token_file_missing :
  let c := sample.config "http://localhost:8080/path" 10 2 0 false
             sample.second "jwt.key" "Authorization" "missing.txt" in
  SendJWT c = false
  ∧ fst (Validate sample.world c)
    = Some (ErrJwtFileNotExist "missing.txt")
  ∧ SendJWT (snd (Validate sample.world c)) = true.
Proof. by vm_compute. Qed.

End Tokens.

(** ** [WorkerFixedReqs.Run]: how often [w.run()] is called *)

Section FixedReqs.
Import worker spec.
Local Open Scope Z_scope.

Context {St : Type}.
Variable run : St -> St.

(** Without cancellation the loop makes its [n] iterations. *)
Lemma request_loop_not_cancelled ctx n k s :
  (∀ i, ctx i = false) →
  request_loop run ctx n k s = (false, (k + n)%nat, Nat.iter n run s).
Proof.
  intros Hctx. revert k s. induction n as [|n IH]; intros k s.
  - cbn. by rewrite Nat.add_0_r.
  - cbn [request_loop]. rewrite Hctx, IH, Nat.iter_succ_r.
    by rewrite Nat.add_succ_r.
Qed.

(** Without cancellation [Run] is [w.run()] repeated: [Reqs] times
    when [Verbose] is off, twice [Reqs] times when it is on. *)
Lemma Run_not_cancelled config s :
  (∀ i, Ctx config i = false) →
  Run run config s =
  Nat.iter (if Verbose config then 2 * Z.to_nat (Reqs config)
            else Z.to_nat (Reqs config)) run s.
Proof.
  intros Hctx. unfold Run.
  destruct (Verbose config);
    rewrite request_loop_not_cancelled by done; [|done].
  rewrite request_loop_not_cancelled by done.
  replace (2 * Z.to_nat (Reqs config))%nat
    with (Z.to_nat (Reqs config) + Z.to_nat (Reqs config))%nat by lia.
  by rewrite Nat.iter_add.
Qed.

(** C2 (what the code does).  Without cancellation, the run with
    [Verbose] on is the run with [Verbose] off made twice: the block
    under [if w.config.Verbose] is not dead, the loop after it runs as
    well. *)
Theorem Run_verbose_is_two_runs (config : Config) (s : St) :
  (∀ i, Ctx config i = false) →
  Run run (worker_Verbose true config) s
  = Run run (worker_Verbose false config)
      (Run run (worker_Verbose false config) s).
Proof.
  intros Hctx. rewrite !Run_not_cancelled by done.
  cbn [worker_Verbose Verbose Reqs].
  replace (2 * Z.to_nat (Reqs config))%nat
    with (Z.to_nat (Reqs config) + Z.to_nat (Reqs config))%nat by lia.
  by rewrite Nat.iter_add.
Qed.

End FixedReqs.

Section FixedReqsCount.
Import worker spec.
Local Open Scope string_scope.
Local Open Scope Z_scope.

(** C1 (what the code does).  Without cancellation a worker issues
    [Reqs] requests when [Verbose] is off and twice [Reqs] requests when
    it is on. *)
Theorem Run_requests_issued (config : Config) :
  (∀ i, Ctx config i = false) →
  requests_issued config =
  if Verbose config then (2 * Z.to_nat (Reqs config))%nat
  else Z.to_nat (Reqs config).
Proof.
  intros Hctx. unfold requests_issued. rewrite Run_not_cancelled by done.
  generalize (if Verbose config then (2 * Z.to_nat (Reqs config))%nat
              else Z.to_nat (Reqs config)).
  intros n. induction n as [|n IH]; [done|].
  by rewrite Nat.iter_succ, IH.
Qed.

(** A verbose worker with a budget of one request issues two. *)
Lemma Run_requests_issued_witness :
  requests_issued (sample.worker_config "http://localhost:8080/path" 1 0
                     true) = 2%nat.
Proof.
  apply (Run_requests_issued
           (sample.worker_config "http://localhost:8080/path" 1 0 true)).
  reflexivity.
Defined.

(** With a server that answers every request, a budget of one request
    ends with two completed requests when [Verbose] is on, with one when
    it is off. *)
Lemma Run_verbose_is_two_runs_witness :
  Run sample.run_ok
    (sample.worker_config "http://localhost:8080/path" 1 0 true)
    sample.no_stats
  = Run sample.run_ok
      (sample.worker_config "http://localhost:8080/path" 1 0 false)
      (Run sample.run_ok
         (sample.worker_config "http://localhost:8080/path" 1 0 false)
         sample.no_stats)
  ∧ CompletedReqs
      (Run sample.run_ok
         (sample.worker_config "http://localhost:8080/path" 1 0 true)
         sample.no_stats) = 2
  ∧ CompletedReqs
      (Run sample.run_ok
         (sample.worker_config "http://localhost:8080/path" 1 0 false)
         sample.no_stats) = 1.
Proof.
  split; [|by vm_compute].
  apply (Run_verbose_is_two_runs sample.run_ok
           (sample.worker_config "http://localhost:8080/path" 1 0 true)
           sample.no_stats).
  reflexivity.
Defined.

End FixedReqsCount.

(** ** [NewWorker]: the kind of worker, and the pools *)

Section NewWorkerFacts.
Import worker spec.
Local Open Scope string_scope.
Local Open Scope Z_scope.
Variable w : World.

(** [NewWorker] fails as [getClient] does, and otherwise builds a worker
    whose kind is read off [Until] and [Reqs]. *)
Lemma NewWorker_result l σ c :
  heap σ !! l = Some c →
  fst (NewWorker w l σ) =
  match getClient w c with
  | inr err => Err err
  | inl client =>
      if Until c =? 0 then Ok (WorkerFixedReqs (baseConfig l client))
      else if Reqs c =? 0 then Ok (WorkerFixedTime (baseConfig l client))
      else Ok (WorkerFixedTimeRequests (baseConfig l client))
  end.
Proof.
  intros Hl. unfold NewWorker. rewrite Hl.
  destruct (getClient w c) as [client|err]; [|done].
  unfold TimeLimited, UnlimitedReqs.
  destruct (Until c =? 0); cbn [negb andb]; [done|].
  by destruct (Reqs c =? 0).
Qed.

(** C5.  Where the client can be built, [NewWorker] returns a
    [WorkerFixedReqs] when D = 0 and R > 0, a [WorkerFixedTime] when
    D > 0 and R = 0, a [WorkerFixedTimeRequests] when D > 0 and R > 0;
    and [Validate] rejects every configuration with R = 0 and D = 0. *)
Theorem NewWorker_termination_mode :
  (∀ (l : loc) (σ : Process) (c : Config) (client : HostClient),
     heap σ !! l = Some c →
     getClient w c = inl client →
     (Until c = 0 → Reqs c > 0 →
      fst (NewWorker w l σ) = Ok (WorkerFixedReqs (baseConfig l client)))
     ∧ (Until c > 0 → Reqs c = 0 →
        fst (NewWorker w l σ) = Ok (WorkerFixedTime (baseConfig l client)))
     ∧ (Until c > 0 → Reqs c > 0 →
        fst (NewWorker w l σ)
        = Ok (WorkerFixedTimeRequests (baseConfig l client))))
  ∧ (∀ cfg : config.Config,
       config.ReqTarget cfg = 0 → config.Duration cfg = 0 →
       fst (config.Validate w cfg) ≠ None).
Proof.
  split.
  - intros l σ c client Hl Hc.
    rewrite (NewWorker_result l σ c Hl), Hc. split_and!.
    + by intros -> _.
    + intros HU ->. destruct (Z.eqb_spec (Until c) 0); [lia | done].
    + intros HU HR. destruct (Z.eqb_spec (Until c) 0); [lia|].
      destruct (Z.eqb_spec (Reqs c) 0); [lia | done].
  - intros cfg HR HD.
    apply (Validate_fails_on w cfg (chk_budget cfg) config.ErrNoBudget).
    + unfold checks, checks_before_jwt, checks_after_jwt. cbn. tauto.
    + unfold chk_budget. by rewrite HR, HD.
Qed.

(** [NewWorker] never writes to the store, and leaves a pool that is set
    as it is. *)
Lemma NewWorker_heap l σ : heap (snd (NewWorker w l σ)) = heap σ.
Proof.
  unfold NewWorker. destruct (heap σ !! l) as [c|]; [|done].
  destruct (getClient w c); [|done].
  by destruct (responsePool σ), (requestPool σ);
    repeat case_match.
Qed.

Lemma NewWorker_requestPool l σ p :
  requestPool σ = Some p → requestPool (snd (NewWorker w l σ)) = Some p.
Proof.
  intros Hp. unfold NewWorker. destruct (heap σ !! l) as [c|]; [|done].
  destruct (getClient w c); [|done].
  destruct (responsePool σ); cbn [requestPool]; rewrite Hp;
    by repeat case_match.
Qed.

Lemma NewWorker_responsePool l σ p :
  responsePool σ = Some p → responsePool (snd (NewWorker w l σ)) = Some p.
Proof.
  intros Hp. unfold NewWorker. destruct (heap σ !! l) as [c|]; [|done].
  destruct (getClient w c); [|done].
  rewrite Hp. destruct (requestPool σ); cbn [responsePool];
    by repeat case_match.
Qed.

Lemma NewWorkers_keeps ls σ p q :
  requestPool σ = Some p → responsePool σ = Some q →
  requestPool (NewWorkers w ls σ) = Some p
  ∧ responsePool (NewWorkers w ls σ) = Some q
  ∧ heap (NewWorkers w ls σ) = heap σ.
Proof.
  revert σ. induction ls as [|l ls IH]; intros σ Hp Hq; [done|].
  cbn [NewWorkers].
  destruct (IH (snd (NewWorker w l σ))) as (H1 & H2 & H3).
  - by apply NewWorker_requestPool.
  - by apply NewWorker_responsePool.
  - by rewrite H1, H2, H3, NewWorker_heap.
Qed.

(** The first call that builds a worker sets both pools. *)
Lemma NewWorker_fresh h l wk σ1 :
  NewWorker w l (fresh h) = (Ok wk, σ1) →
  (∃ c, h !! l = Some c)
  ∧ σ1 = {| heap := h; requestPool := Some (RequestPool_New l);
            responsePool := Some ResponsePool_New |}.
Proof.
  unfold NewWorker, fresh. cbn [heap requestPool responsePool].
  destruct (h !! l) as [c|] eqn:Hl; [|done].
  destruct (getClient w c); [|done].
  intros H. split; [by eexists|].
  by repeat case_match; simplify_eq.
Qed.

(** A call that returns no worker leaves the process as it is, and so
    does a series of such calls. *)
Lemma NewWorker_no_worker l σ :
  (∀ wk, fst (NewWorker w l σ) ≠ Ok wk) → snd (NewWorker w l σ) = σ.
Proof.
  unfold NewWorker. destruct (heap σ !! l) as [c|]; [|done].
  destruct (getClient w c); [|done].
  intros H. exfalso.
  destruct (negb (TimeLimited c)); [by eapply H|].
  destruct (UnlimitedReqs c); by eapply H.
Qed.

Lemma NewWorkers_no_worker ls σ :
  (∀ l, In l ls → ∀ wk, fst (NewWorker w l σ) ≠ Ok wk) →
  NewWorkers w ls σ = σ.
Proof.
  induction ls as [|l ls IH]; intros H; [done|].
  cbn [NewWorkers]. rewrite NewWorker_no_worker.
  - apply IH. intros l' Hl'. apply H. by right.
  - apply H. by left.
Qed.

Lemma NewWorkers_app ls1 ls2 σ :
  NewWorkers w (ls1 ++ ls2) σ = NewWorkers w ls2 (NewWorkers w ls1 σ).
Proof. revert σ. induction ls1 as [|l ls1 IH]; intros σ; [done|apply IH]. Qed.

(** C8 (as amended).  In a process where no pool is set, calls of
    [NewWorker] that return no worker set none.  The first call that
    returns a worker sets both, the request pool with a constructor that
    holds the configuration pointer of that call; whatever calls follow,
    with whatever configurations, the pools and the store stay as they
    are, and so does the request that the pool's constructor builds.
    That request is read through the pointer when the constructor runs:
    it is the one of the configuration the pointer then leads to. *)
Theorem pools_initialised_once (h : gmap loc Config) (pre : list loc)
    (l : loc) (wk : Worker) (σ1 : Process) (ls : list loc) :
  (∀ l', In l' pre → ∀ wk', fst (NewWorker w l' (fresh h)) ≠ Ok wk') →
  NewWorker w l (fresh h) = (Ok wk, σ1) →
  NewWorkers w pre (fresh h) = fresh h
  ∧ NewWorkers w (pre ++ l :: ls) (fresh h) = NewWorkers w ls σ1
  ∧ requestPool (NewWorkers w ls σ1) = Some (RequestPool_New l)
  ∧ responsePool (NewWorkers w ls σ1) = Some ResponsePool_New
  ∧ heap (NewWorkers w ls σ1) = h
  ∧ pooled_request (NewWorkers w ls σ1) = pooled_request σ1
  ∧ (∃ c, h !! l = Some c ∧ pooled_request σ1 = Some (new_request c))
  ∧ ∀ h' : gmap loc Config,
      pooled_request
        {| heap := h';
           requestPool := requestPool (NewWorkers w ls σ1);
           responsePool := responsePool (NewWorkers w ls σ1) |}
      = new_request <$> h' !! l.
Proof.
  intros Hpre Hcall.
  pose proof (NewWorkers_no_worker pre (fresh h) Hpre) as Hfresh.
  assert (Hσ1 : σ1 = snd (NewWorker w l (fresh h))) by by rewrite Hcall.
  apply NewWorker_fresh in Hcall as [[c Hl] ->].
  destruct (NewWorkers_keeps ls
              {| heap := h; requestPool := Some (RequestPool_New l);
                 responsePool := Some ResponsePool_New |}
              (RequestPool_New l) ResponsePool_New) as (H1 & H2 & H3);
    [done..|].
  cbn [heap] in H3. split_and!; [done| |done..| | |].
  - rewrite NewWorkers_app, Hfresh. cbn [NewWorkers]. by rewrite <- Hσ1.
  - unfold pooled_request. by rewrite H1, H3.
  - exists c. split; [done|]. unfold pooled_request.
    cbn [requestPool heap]. by rewrite Hl.
  - intros h'. unfold pooled_request. cbn [requestPool heap].
    rewrite H1. by destruct (h' !! l).
Qed.

End NewWorkerFacts.

Section NewWorkerSamples.
Import worker spec.
Local Open Scope string_scope.
Local Open Scope Z_scope.

(** In a store with one configuration of ten requests and no duration,
    [NewWorker] builds a [WorkerFixedReqs]; and [Validate] rejects a
    configuration without requests and without duration. *)
Lemma NewWorker_termination_mode_witness :
  fst (NewWorker sample.world 1%nat
         (fresh {[ 1%nat := sample.worker_config
                              "http://localhost:8080/path" 10 0 false ]}))
  = Ok (WorkerFixedReqs (baseConfig 1%nat sample.host_client))
  ∧ fst (config.Validate sample.world
           (sample.config "http://localhost:8080/path" 0 0 0 false
              sample.second "" "" "")) ≠ None.
Proof.
  assert (Hl : heap (fresh {[ 1%nat := sample.worker_config
                              "http://localhost:8080/path" 10 0 false ]})
                 !! 1%nat
               = Some (sample.worker_config "http://localhost:8080/path"
                         10 0 false)) by (by vm_compute).
  assert (Hc : getClient sample.world
                 (sample.worker_config "http://localhost:8080/path" 10 0
                    false) = inl sample.host_client) by (by vm_compute).
  split.
  - apply (proj1 (proj1 (NewWorker_termination_mode sample.world)
                    1%nat _ _ _ Hl Hc)).
    + reflexivity.
    + cbn. lia.
  - apply (proj2 (NewWorker_termination_mode sample.world)); reflexivity.
Defined.

(** After a call with the configuration at address 3, which returns no
    worker, and a call with the configuration at address 1, which returns
    one, a call with the configuration at address 2 (another URI,
    another method, no keep-alive) leaves the request pool with the
    pointer of the second call, and the pooled request as it was. *)
Lemma pools_initialised_once_witness :
  NewWorkers sample.world [3%nat] (fresh sample.configs)
  = fresh sample.configs
  ∧ requestPool
      (NewWorkers sample.world [2%nat]
         {| heap := sample.configs;
            requestPool := Some (RequestPool_New 1%nat);
            responsePool := Some ResponsePool_New |})
    = Some (RequestPool_New 1%nat)
  ∧ pooled_request
      (NewWorkers sample.world [2%nat]
         {| heap := sample.configs;
            requestPool := Some (RequestPool_New 1%nat);
            responsePool := Some ResponsePool_New |})
    = Some {| req_Header := []; req_Method := "";
              req_URI := "http://localhost:8080/path" |}.
Proof.
  assert (Hpre : ∀ l', In l' [3%nat] →
                 ∀ wk', fst (NewWorker sample.world l'
                               (fresh sample.configs)) ≠ Ok wk').
  { intros l' [<-|[]] wk'. by vm_compute. }
  assert (H : NewWorker sample.world 1%nat (fresh sample.configs)
              = (Ok (WorkerFixedReqs (baseConfig 1%nat sample.host_client)),
                 {| heap := sample.configs;
                    requestPool := Some (RequestPool_New 1%nat);
                    responsePool := Some ResponsePool_New |}))
    by (by vm_compute).
  pose proof (pools_initialised_once sample.world sample.configs
                [3%nat] 1%nat _ _ [2%nat] Hpre H)
    as (H0 & _ & H1 & _ & _ & H4 & _).
  split_and!; [exact H0 | exact H1 |]. rewrite H4. by vm_compute.
Defined.

(** C8 (as stated) fails where the first call returns no worker, and
    where the configuration of the call that set the pool is written
    to.  The first of three calls, with the configuration at address 3,
    fails in [getClient] on the empty request URI: the pooled request is
    the one of the second call, not of the first.  And with the pool set
    by a call with the configuration at address 1, a write of another
    configuration to that address changes the request that the
    constructor builds. *)
Lemma pool_template_of_a_later_call :
  (∃ err, NewWorker sample.world 3%nat (fresh sample.configs)
          = (Err err, fresh sample.configs))
  ∧ requestPool (NewWorkers sample.world [3%nat; 2%nat; 1%nat]
                   (fresh sample.configs))
    = Some (RequestPool_New 2%nat)
  ∧ pooled_request (NewWorkers sample.world [3%nat; 2%nat; 1%nat]
                      (fresh sample.configs))
    = Some {| req_Header := [("Connection", "close")];
              req_Method := "POST";
              req_URI := "https://localhost:443/some-path" |}
  ∧ new_request <$> sample.configs !! 3%nat
    = Some {| req_Header := []; req_Method := ""; req_URI := "" |}
  ∧ pooled_request (snd (NewWorker sample.world 1%nat
                           (fresh sample.configs)))
    = Some {| req_Header := []; req_Method := "";
              req_URI := "http://localhost:8080/path" |}
  ∧ pooled_request
      {| heap := <[1%nat := sample.other_worker_config]> sample.configs;
         requestPool := requestPool
                          (snd (NewWorker sample.world 1%nat
                                  (fresh sample.configs)));
         responsePool := responsePool
                           (snd (NewWorker sample.world 1%nat
                                   (fresh sample.configs))) |}
    = Some {| req_Header := [("Connection", "close")];
              req_Method := "POST";
              req_URI := "https://localhost:443/some-path" |}.
Proof. split_and!; [by eexists; vm_compute | by vm_compute..]. Qed.

(** Where the first call fails (here in [getClient], on the empty
    request URI of the configuration at address 3), it sets no pool: the
    next call does. *)
Example pools_set_by_first_successful_call :
  requestPool (NewWorkers sample.world [3%nat; 2%nat; 1%nat]
                 (fresh sample.configs))
  = Some (RequestPool_New 2%nat).
Proof. by vm_compute. Qed.

End NewWorkerSamples.

(** ** The client certificate *)

Section ClientCertificate.
Import spec.
Local Open Scope string_scope.
Local Open Scope Z_scope.
Variable w : World.

Lemma both_set (a b : string) :
  negb (String.eqb a "") && negb (String.eqb b "") = true
  ↔ a ≠ "" ∧ b ≠ "".
Proof.
  rewrite andb_true_iff, !negb_true_iff. by rewrite !String.eqb_neq.
Qed.

Lemma exactly_one_not_both (a b : string) :
  exactly_one a b →
  negb (String.eqb a "") && negb (String.eqb b "") = false.
Proof.
  intros [[_ ->] | [-> _]]; [by rewrite andb_false_r | done].
Qed.

(** The TLS configuration of the net/http constructors. *)
Lemma tlsConfig_of_certificates config tlsConfig :
  nethttp.tlsConfig_of w config = inl tlsConfig →
  (Certificates tlsConfig ≠ [] ↔
   nethttp.MTLSCert config ≠ "" ∧ nethttp.MTLSKey config ≠ "").
Proof.
  unfold nethttp.tlsConfig_of. rewrite <- both_set.
  destruct (negb _ && negb _).
  - destruct (LoadX509KeyPair _ _ _); [|done].
    intros [= <-]. by cbn.
  - intros [= <-]. by cbn.
Qed.

(** The TLS configuration that [getClient] builds before it builds the
    client. *)
Lemma getClient_built (config : worker.Config) (client : HostClient) :
  worker.getClient w config = inl client →
  ∃ built,
    (Certificates (TLSConfig built) ≠ []
     ↔ worker.MTLSCert config ≠ "" ∧ worker.MTLSKey config ≠ "")
    ∧ (∀ cert,
         LoadX509KeyPair w (worker.MTLSCert config) (worker.MTLSKey config)
         = inl cert →
         worker.MTLSCert config ≠ "" ∧ worker.MTLSKey config ≠ "" →
         Certificates (TLSConfig built) = [cert])
    ∧ if worker.HTTPV2 config
      then ConfigureClient w built (worker.ReadTimeout config) = inl client
      else client = built.
Proof.
  unfold worker.getClient.
  destruct (String.eqb_spec (worker.MTLSCert config) "") as [Hc|Hc],
    (String.eqb_spec (worker.MTLSKey config) "") as [Hk|Hk];
    cbn [negb andb];
    [| | |destruct (LoadX509KeyPair _ _ _) as [cert|]; [|done]];
    (destruct (ParseRequestURI _ _) as [u|]; [|done]);
    (destruct (worker.HTTPV2 config); cbn [negb];
     [destruct (ConfigureClient _ _ _) as [cl|] eqn:E; [|done]|]);
    intros [= <-]; eexists;
    (split_and!; [| |first [exact E | reflexivity]]);
    cbn [TLSConfig Certificates InsecureSkipVerify];
    try (intros ? ? [? ?]; congruence);
    try (intros ? [= <-]; done);
    (split; [intros ?; try done; by split | intros [? ?]; congruence]).
Qed.

(** When the parts can be had, [getClient] returns a client. *)
Lemma getClient_returns (config : worker.Config) (u : URL) :
  (negb (String.eqb (worker.MTLSCert config) "")
   && negb (String.eqb (worker.MTLSKey config) "") = true →
   ∃ cert, LoadX509KeyPair w (worker.MTLSCert config)
             (worker.MTLSKey config) = inl cert) →
  ParseRequestURI w (worker.ReqURI config) = inl u →
  worker.HTTPV2 config = false ∨ spec2.configures w →
  ∃ client, worker.getClient w config = inl client.
Proof.
  intros Hload Hu Hv2. unfold worker.getClient. rewrite Hu.
  destruct (negb _ && negb _).
  - destruct Hload as [cert ->]; [done|].
    destruct Hv2 as [-> | Hcl]; [by eexists|].
    destruct (negb (worker.HTTPV2 config)); [by eexists|].
    destruct (Hcl (mkHostClient (Host u) (String.eqb (Scheme u) "https") 1
                     (worker.ReadTimeout config)
                     (worker.WriteTimeout config) true
                     (mk_tls_Config
                        (InsecureSkipVerify
                           (mk_tls_Config (worker.SkipVerify config) []))
                        [cert])
                     DefaultTransport)
                (worker.ReadTimeout config)) as [cl Hcl'].
    rewrite Hcl'. by eexists.
  - destruct Hv2 as [-> | Hcl]; [by eexists|].
    destruct (negb (worker.HTTPV2 config)); [by eexists|].
    destruct (Hcl (mkHostClient (Host u) (String.eqb (Scheme u) "https") 1
                     (worker.ReadTimeout config)
                     (worker.WriteTimeout config) true
                     (mk_tls_Config (worker.SkipVerify config) [])
                     DefaultTransport)
                (worker.ReadTimeout config)) as [cl Hcl'].
    rewrite Hcl'. by eexists.
Qed.

(** What the HTTP/2 library is asked for where a statement is to hold
    with [HTTPV2] set as well. *)
Lemma certificates_kept (config : worker.Config) (built client : HostClient) :
  worker.HTTPV2 config = false ∨ spec2.keeps_certificates w →
  (if worker.HTTPV2 config
   then ConfigureClient w built (worker.ReadTimeout config) = inl client
   else client = built) →
  Certificates (TLSConfig client) = Certificates (TLSConfig built).
Proof.
  intros [-> | Hk]; [by intros ->|].
  destruct (worker.HTTPV2 config); [apply Hk | by intros ->].
Qed.

(** C10.  A client that [GetNetHTTPClient] or [getClient] returns
    carries a client certificate if and only if both the certificate
    path and the key path are given.  With exactly one of the two given,
    [GetNetHTTPClient] succeeds, and so does [getClient] when the
    request URI parses; the client carries no certificate and no error
    tells of the path that was left aside.  With both given and a key
    pair that loads, the client is built and carries that certificate,
    and no other; with a key pair that does not load, there is no client
    but the error of the loader.  For [getClient] with [HTTPV2] set all
    this is said of an HTTP/2 library that returns no error and leaves
    the certificates of the client as it finds them. *)
Theorem client_certificate_rule :
  (∀ config c,
     nethttp.GetNetHTTPClient w config = inl c →
     (Certificates (nethttp.TLSClientConfig
                      (nethttp.Transport (nethttp.client c))) ≠ []
      ↔ nethttp.MTLSCert config ≠ "" ∧ nethttp.MTLSKey config ≠ ""))
  ∧ (∀ config client,
       worker.getClient w config = inl client →
       worker.HTTPV2 config = false ∨ spec2.keeps_certificates w →
       (Certificates (TLSConfig client) ≠ []
        ↔ worker.MTLSCert config ≠ "" ∧ worker.MTLSKey config ≠ ""))
  ∧ (∀ config,
       exactly_one (nethttp.MTLSCert config) (nethttp.MTLSKey config) →
       ∃ c, nethttp.GetNetHTTPClient w config = inl c
            ∧ Certificates (nethttp.TLSClientConfig
                              (nethttp.Transport (nethttp.client c))) = [])
  ∧ (∀ config u,
       exactly_one (worker.MTLSCert config) (worker.MTLSKey config) →
       ParseRequestURI w (worker.ReqURI config) = inl u →
       worker.HTTPV2 config = false
       ∨ (spec2.keeps_certificates w ∧ spec2.configures w) →
       ∃ client, worker.getClient w config = inl client
                 ∧ Certificates (TLSConfig client) = [])
  ∧ (∀ config cert,
       nethttp.MTLSCert config ≠ "" → nethttp.MTLSKey config ≠ "" →
       LoadX509KeyPair w (nethttp.MTLSCert config) (nethttp.MTLSKey config)
       = inl cert →
       ∃ c, nethttp.GetNetHTTPClient w config = inl c
            ∧ Certificates (nethttp.TLSClientConfig
                              (nethttp.Transport (nethttp.client c)))
              = [cert])
  ∧ (∀ config cert u,
       worker.MTLSCert config ≠ "" → worker.MTLSKey config ≠ "" →
       LoadX509KeyPair w (worker.MTLSCert config) (worker.MTLSKey config)
       = inl cert →
       ParseRequestURI w (worker.ReqURI config) = inl u →
       worker.HTTPV2 config = false
       ∨ (spec2.keeps_certificates w ∧ spec2.configures w) →
       ∃ client, worker.getClient w config = inl client
                 ∧ Certificates (TLSConfig client) = [cert])
  ∧ (∀ config err,
       nethttp.MTLSCert config ≠ "" → nethttp.MTLSKey config ≠ "" →
       LoadX509KeyPair w (nethttp.MTLSCert config) (nethttp.MTLSKey config)
       = inr err →
       nethttp.GetNetHTTPClient w config = inr err)
  ∧ (∀ config err,
       worker.MTLSCert config ≠ "" → worker.MTLSKey config ≠ "" →
       LoadX509KeyPair w (worker.MTLSCert config) (worker.MTLSKey config)
       = inr err →
       worker.getClient w config = inr err).
Proof.
  split_and!.
  - intros config c. unfold nethttp.GetNetHTTPClient.
    destruct (nethttp.tlsConfig_of w config) as [t|] eqn:E; [|done].
    intros [= <-]. cbn. by apply tlsConfig_of_certificates.
  - intros config client (built & Hb & _ & Hcl)%getClient_built Hlib.
    by rewrite (certificates_kept config built client Hlib Hcl).
  - intros config H%exactly_one_not_both.
    unfold nethttp.GetNetHTTPClient, nethttp.tlsConfig_of. rewrite H.
    by eexists.
  - intros config u Hone Hu Hlib.
    destruct (getClient_returns config u) as [client Hc]; [|done|tauto|].
    { by rewrite (exactly_one_not_both _ _ Hone). }
    exists client. split; [done|].
    destruct (getClient_built config client Hc) as (built & Hb & _ & Hcl).
    rewrite (certificates_kept config built client); [|tauto|done].
    destruct (Certificates (TLSConfig built)) as [|x l] eqn:E; [done|].
    destruct Hone as [[_ ?]|[? _]]; destruct Hb as [[? ?] _]; done.
  - intros config cert Hc%String.eqb_neq Hk%String.eqb_neq Hload.
    unfold nethttp.GetNetHTTPClient, nethttp.tlsConfig_of.
    rewrite Hc, Hk, Hload. by eexists.
  - intros config cert u Hc Hk Hload Hu Hlib.
    destruct (getClient_returns config u) as [client Hcl]; [|done|tauto|].
    { intros _. by exists cert. }
    exists client. split; [done|].
    destruct (getClient_built config client Hcl) as (built & _ & Hb & Hcl').
    rewrite (certificates_kept config built client); [|tauto|done].
    by apply Hb.
  - intros config err Hc%String.eqb_neq Hk%String.eqb_neq Hload.
    unfold nethttp.GetNetHTTPClient, nethttp.tlsConfig_of.
    by rewrite Hc, Hk, Hload.
  - intros config err Hc%String.eqb_neq Hk%String.eqb_neq Hload.
    unfold worker.getClient. by rewrite Hc, Hk, Hload.
Qed.

End ClientCertificate.

Section ClientCertificateSamples.
Import spec.
Local Open Scope string_scope.
Local Open Scope Z_scope.

(** The HTTP/2 library of the sample world returns no error and leaves
    the certificates alone. *)
Lemma sample_keeps_certificates : spec2.keeps_certificates sample.world.
Proof. by intros client t client' [= <-]. Qed.

Lemma sample_configures : spec2.configures sample.world.
Proof. intros client t. by eexists. Qed.

(** A key path and no certificate path for the net/http client, a
    certificate path and no key path for the fasthttp client: both clients
    are built, without a certificate.  Both paths, for the net/http
    client and for the fasthttp client over HTTP/2: both clients are
    built, with the certificate of the two paths. *)
Lemma client_certificate_rule_witness :
  (∃ c, nethttp.GetNetHTTPClient sample.world sample.nethttp_config = inl c
        ∧ Certificates (nethttp.TLSClientConfig
                          (nethttp.Transport (nethttp.client c))) = [])
  ∧ (∃ client,
       worker.getClient sample.world sample.other_worker_config = inl client
       ∧ Certificates (TLSConfig client) = [])
  ∧ (∃ c, nethttp.GetNetHTTPClient sample.world sample2.mtls_nethttp_config
          = inl c
          ∧ Certificates (nethttp.TLSClientConfig
                            (nethttp.Transport (nethttp.client c)))
            = [X509KeyPair "client.crt" "client.key"])
  ∧ (∃ client,
       worker.getClient sample.world (sample2.mtls_worker_config true)
       = inl client
       ∧ Certificates (TLSConfig client)
         = [X509KeyPair "client.crt" "client.key"]).
Proof.
  pose proof (client_certificate_rule sample.world)
    as (_ & _ & H3 & H4 & H5 & H6 & _).
  split_and!.
  - apply H3. by right.
  - apply (H4 sample.other_worker_config (mkURL "https" "localhost:443")).
    + by left.
    + reflexivity.
    + by left.
  - by apply H5.
  - apply (H6 (sample2.mtls_worker_config true) _
              (mkURL "https" "localhost:443")).
    + done.
    + done.
    + reflexivity.
    + reflexivity.
    + right. split; [apply sample_keeps_certificates
                    | apply sample_configures].
Defined.

End ClientCertificateSamples.

(** ** What [Validate] accepts *)

Section Acceptance.
Import config spec spec2.
Local Open Scope string_scope.
Local Open Scope Z_scope.
Variable w : World.

Lemma prefix_app (p s : string) :
  String.prefix p s = true ↔ ∃ t, s = p ++ t.
Proof.
  revert s. induction p as [|a p IH]; intros s.
  - split; [by exists s | by destruct s].
  - destruct s as [|b s]; cbn.
    + split; [done | by intros [? ?]].
    + destruct (Ascii.ascii_dec a b) as [->|Hab].
      * rewrite IH. split.
        -- intros [t ->]. by exists t.
        -- intros [t [= ->]]. by exists t.
      * split; [done|]. intros [t [= <- _]]. done.
Qed.

(** [strings.Contains]: the substring occurs somewhere. *)
Lemma Contains_app (s sub : string) :
  Contains s sub = true ↔ ∃ pre post, s = pre ++ sub ++ post.
Proof.
  induction s as [|a s IH]; cbn [Contains].
  - destruct (String.prefix sub "") eqn:Hp.
    + split; [|done]. intros _. apply prefix_app in Hp as [t Ht].
      by exists "", t.
    + split; [done|]. intros (pre & post & H).
      destruct pre; [|done]. cbn in H.
      assert (String.prefix sub "" = true) by (apply prefix_app; eauto).
      congruence.
  - destruct (String.prefix sub (String a s)) eqn:Hp.
    + split; [|done]. intros _. apply prefix_app in Hp as [t Ht].
      by exists "", t.
    + rewrite IH. split.
      * intros (pre & post & ->). by exists (String a pre), post.
      * intros (pre & post & H). destruct pre as [|b pre].
        -- cbn in H.
           assert (String.prefix sub (String a s) = true)
             by (apply prefix_app; eauto).
           congruence.
        -- injection H as -> ->. eauto.
Qed.

(** [find] returns the first element that passes the test. *)
Lemma find_first {A} (f : A → bool) (l : list A) x :
  List.find f l = Some x →
  ∃ l1 l2, l = (l1 ++ x :: l2)%list ∧ f x = true
           ∧ ∀ y, In y l1 → f y = false.
Proof.
  induction l as [|a l IH]; cbn; [done|].
  destruct (f a) eqn:Ha.
  - intros [= ->]. by exists [], l.
  - intros (l1 & l2 & -> & Hx & Hl1)%IH. exists (a :: l1), l2.
    split_and!; [done..|]. intros y [<-|Hy]; auto.
Qed.

Lemma find_none_iff {A} (f : A → bool) (l : list A) :
  List.find f l = None ↔ ∀ y, In y l → f y = false.
Proof.
  induction l as [|a l IH]; cbn; [by split|].
  destruct (f a) eqn:Ha.
  - split; [done|]. intros H. specialize (H a (or_introl eq_refl)).
    congruence.
  - rewrite IH. split.
    + intros H y [<-|Hy]; auto.
    + intros H y Hy. apply H. by right.
Qed.

Lemma methodAllowed_from_In ms method :
  methodAllowed_from ms method = true ↔ In method ms.
Proof.
  induction ms as [|m ms IH]; cbn; [done|].
  destruct (String.eqb_spec method m) as [->|Hne].
  - split; [by left | done].
  - rewrite IH. split; [by right | by intros [?|?]].
Qed.

Lemma opened_or_None path e f :
  opened_or w path e f = None ↔ OpenFile w path = Opened.
Proof. unfold opened_or. by destruct (OpenFile w path). Qed.

(** Each test passes exactly where its rule holds. *)
Lemma chk_file_None path e f :
  (if negb (String.eqb path "") then opened_or w path e f else None) = None
  ↔ opens w path.
Proof.
  unfold opens. destruct (String.eqb_spec path "") as [->|Hne]; cbn [negb].
  - split; [by left | done].
  - rewrite opened_or_None. split; [by right | by intros [?|?]].
Qed.

Lemma chk_limits_None c :
  chk_limit_no_duration c = None ∧ chk_limit_both_budgets c = None ↔
  GoInt.int64_of_uint (Conns c) ≤ ReqTarget c
  ∨ (Duration c ≠ 0 ∧ ReqTarget c = 0).
Proof.
  unfold chk_limit_no_duration, chk_limit_both_budgets.
  destruct (Z.gtb_spec (GoInt.int64_of_uint (Conns c)) (ReqTarget c)),
    (Z.eqb_spec (Duration c) 0), (Z.eqb_spec (ReqTarget c) 0);
    cbn [andb negb]; split; try done; try lia; try (intros [? ?]; done);
    try (intros _; lia).
  all: intros [?|[? ?]]; [lia | done].
Qed.

Lemma chk_jwt_header_source_None c :
  chk_jwt_header c = None ∧ chk_jwt_source c = None ↔
  (JwtHeader c = "" ↔ JwtKey c = "" ∧ JwtsFilename c = "").
Proof.
  unfold chk_jwt_header, chk_jwt_source.
  destruct (String.eqb_spec (JwtHeader c) ""),
    (String.eqb_spec (JwtsFilename c) ""), (String.eqb_spec (JwtKey c) "");
    cbn [andb orb negb]; split; try done; try tauto;
    try (intros [? ?]; done).
Qed.

Lemma chk_jwt_blocks_None c :
  chk_jwt_key w c = None ∧ chk_jwt_file w c = None ↔
  (JwtKey c ≠ "" ∨ JwtsFilename c ≠ "" → ReqTarget c ≠ 0)
  ∧ opens w (JwtKey c) ∧ opens w (JwtsFilename c).
Proof.
  unfold chk_jwt_key, chk_jwt_file, opens, opened_or.
  destruct (String.eqb_spec (JwtKey c) ""),
    (String.eqb_spec (JwtsFilename c) ""), (Z.eqb_spec (ReqTarget c) 0);
    cbn [negb];
    destruct (OpenFile w (JwtKey c)), (OpenFile w (JwtsFilename c));
    split; try done; try tauto; try (intros [? ?]; done);
    try (intros (? & [?|?] & [?|?]); done);
    try (intros (H & _); exfalso; apply H; tauto);
    try (intros _; split_and!; auto; tauto).
Qed.

Lemma chk_headers_None c :
  chk_headers c = None ↔
  ∀ h, In h (Headers c) → ∃ pre post, h = pre ++ ":" ++ post.
Proof.
  unfold chk_headers.
  assert (Hfind : option_map ErrHeaderNoColon
            (List.find (λ h, negb (Contains h ":")) (Headers c)) = None
          ↔ ∀ h, In h (Headers c) → ∃ pre post, h = pre ++ ":" ++ post).
  { destruct (List.find _ _) as [h|] eqn:E; cbn.
    - split; [done|]. intros H.
      apply find_first in E as (l1 & l2 & Hl & Hh & _).
      assert (Hin : In h (Headers c)) by (rewrite Hl, in_app_iff; cbn; tauto).
      apply H, Contains_app in Hin. by rewrite Hin in Hh.
    - split; [|done]. intros _ h Hin.
      rewrite find_none_iff in E. apply E in Hin.
      apply Contains_app. by destruct (Contains h ":"). }
  destruct (Headers c) as [|h0 hs] eqn:EH; [by cbn|].
  replace (0 <? Z.of_nat (List.length (h0 :: hs))) with true; [done|].
  symmetry. apply Z.ltb_lt. cbn [List.length]. lia.
Qed.

Lemma chk_body_None c : chk_body w c = None ↔ opens w (BodyFile c).
Proof.
  unfold chk_body, opens.
  destruct (BodyFile c) as [|a s] eqn:E; cbn [String.length].
  - cbn. split; [by left | done].
  - replace (0 <? Z.of_nat (S (String.length s))) with true
      by (symmetry; apply Z.ltb_lt; lia).
    rewrite opened_or_None. split; [by right | by intros [?|?]].
Qed.

Lemma chk_claims_None c :
  chk_claims w c = None ↔
  JwtCustomClaimsJSON c = "" ∨ Unmarshal w (JwtCustomClaimsJSON c) = None.
Proof.
  unfold chk_claims, JwtCustomClaimsJSONStringToMap.
  destruct (String.eqb_spec (JwtCustomClaimsJSON c) "") as [E|E];
    cbn [negb]; [tauto|].
  destruct (Unmarshal w (JwtCustomClaimsJSON c)); cbn; split; try done.
  - by intros [?|?].
  - by right.
Qed.

Lemma chk_uri_None c :
  chk_uri w c = None ↔ ∃ u, ParseRequestURI w (ReqURI c) = inl u.
Proof.
  unfold chk_uri. destruct (ParseRequestURI w (ReqURI c)).
  - split; [by eexists | done].
  - split; [done | by intros [? ?]].
Qed.

Lemma chk_conns_None c : chk_conns c = None ↔ Conns c ≠ 0.
Proof. unfold chk_conns. by destruct (Z.eqb_spec (Conns c) 0). Qed.

Lemma chk_format_None c :
  chk_format c = None ↔ regexp.MatchString regExHostURI (ReqURI c) = true.
Proof. unfold chk_format. by destruct (regexp.MatchString _ _). Qed.

Lemma chk_ticker_None c : chk_ticker c = None ↔ VerboseTicker c ≠ 0.
Proof. unfold chk_ticker. by destruct (Z.eqb_spec (VerboseTicker c) 0). Qed.

Lemma chk_method_None c :
  chk_method c = None
  ↔ methodAllowed_from allowedMethods (Method c) = true.
Proof.
  unfold chk_method, methodAllowed. by destruct (methodAllowed_from _ _).
Qed.

Lemma chk_write_None c : chk_write c = None ↔ WriteTimeout c ≠ 0.
Proof. unfold chk_write. by destruct (Z.eqb_spec (WriteTimeout c) 0). Qed.

Lemma chk_read_None c : chk_read c = None ↔ ReadTimeout c ≠ 0.
Proof. unfold chk_read. by destruct (Z.eqb_spec (ReadTimeout c) 0). Qed.

Lemma chk_budget_None c :
  chk_budget c = None ↔ ReqTarget c ≠ 0 ∨ Duration c ≠ 0.
Proof.
  unfold chk_budget.
  destruct (Z.eqb_spec (ReqTarget c) 0), (Z.eqb_spec (Duration c) 0);
    cbn; split; try done; tauto.
Qed.

Ltac in_list := cbn [In]; solve [repeat first [by left | right]].

(** X1.  [Validate] returns no error exactly for the configurations that
    meet every rule of [acceptable]: a request URI that parses and holds a
    scheme and a port, a connection count within the request target (as
    the code compares them), files that open, a token header exactly where
    a token source is given, headers with a colon, an allowed method,
    timeouts and ticker that are not zero, a budget, and custom claims
    that parse. *)
Theorem Validate_accepts_iff (c : Config) :
  fst (Validate w c) = None ↔ acceptable w c.
Proof.
  rewrite Validate_spec. cbn [fst]. rewrite first_error_all_None.
  unfold checks, checks_before_jwt, checks_after_jwt, acceptable.
  cbn [app].
  pose proof (chk_limits_None c) as Hlim.
  pose proof (chk_jwt_header_source_None c) as Hjh.
  pose proof (chk_jwt_blocks_None c) as Hjb.
  pose proof (chk_headers_None c) as Hhd.
  pose proof (chk_body_None c) as Hbody.
  pose proof (chk_claims_None c) as Hcl.
  pose proof (MatchString_regExHostURI (ReqURI c)) as Hre.
  pose proof (methodAllowed_from_In allowedMethods (Method c)) as Hin.
  pose proof (chk_file_None (MTLSKey c) ErrMTLSKeyNotExist ErrMTLSKeyCheck)
    as Hkey.
  pose proof (chk_file_None (MTLSCert c) ErrMTLSCertNotExist
                ErrMTLSCertCheck) as Hcert.
  fold (chk_mtls_key w c) in Hkey. fold (chk_mtls_cert w c) in Hcert.
  pose proof (chk_uri_None c) as Huri.
  pose proof (chk_conns_None c) as Hconns.
  pose proof (chk_format_None c) as Hfmt.
  pose proof (chk_ticker_None c) as Htick.
  pose proof (chk_method_None c) as Hmeth.
  pose proof (chk_write_None c) as Hwr.
  pose proof (chk_read_None c) as Hrd.
  pose proof (chk_budget_None c) as Hbud.
  split.
  - intros H.
    assert (Hall : ∀ o, In o [chk_uri w c; chk_limit_no_duration c;
                     chk_limit_both_budgets c; chk_conns c; chk_format c;
                     chk_mtls_key w c; chk_mtls_cert w c; chk_jwt_header c;
                     chk_jwt_source c; chk_jwt_key w c; chk_jwt_file w c;
                     chk_headers c; chk_body w c; chk_ticker c;
                     chk_method c; chk_write c; chk_read c; chk_budget c;
                     chk_claims w c] → o = None) by exact H.
    clear H.
    split_and!.
    + apply Huri, Hall. in_list.
    + apply Hlim. split; apply Hall; in_list.
    + apply Hconns, Hall. in_list.
    + apply Hre, Hfmt, Hall. in_list.
    + apply Hkey, Hall. in_list.
    + apply Hcert, Hall. in_list.
    + apply Hjh. split; apply Hall; in_list.
    + apply Hjb. split; apply Hall; in_list.
    + apply Hjb. split; apply Hall; in_list.
    + apply Hjb. split; apply Hall; in_list.
    + apply Hhd, Hall. in_list.
    + apply Hbody, Hall. in_list.
    + apply Htick, Hall. in_list.
    + apply Hin, Hmeth, Hall. in_list.
    + apply Hwr, Hall. in_list.
    + apply Hrd, Hall. in_list.
    + apply Hbud, Hall. in_list.
    + apply Hcl, Hall. in_list.
  - intros (A1 & A2 & A3 & A4 & A5 & A6 & A7 & A8 & A9 & A10 & A11 & A12
            & A13 & A14 & A15 & A16 & A17 & A18).
    apply Huri in A1. apply Hlim in A2 as [A2 A2'].
    apply Hconns in A3. apply Hre, Hfmt in A4.
    apply Hkey in A5. apply Hcert in A6. apply Hjh in A7 as [A7 A7'].
    assert (A8' : chk_jwt_key w c = None ∧ chk_jwt_file w c = None)
      by (by apply Hjb).
    destruct A8' as [A8' A8''].
    apply Hhd in A11. apply Hbody in A12. apply Htick in A13.
    apply Hin, Hmeth in A14. apply Hwr in A15. apply Hrd in A16.
    apply Hbud in A17. apply Hcl in A18.
    intros o Ho. cbn [In] in Ho.
    repeat (destruct Ho as [<-|Ho]; [assumption|]). done.
Qed.

End Acceptance.

(** ** More on [Validate]: repetition, reporting, bounds *)

Section ValidateMore.
Import config spec spec2.
Local Open Scope string_scope.
Local Open Scope Z_scope.

(** X2.  Validating twice is validating once: on the receiver as a first
    call left it, [Validate] returns the same error and changes nothing
    more. *)
Theorem Validate_twice (w : World) (c : Config) :
  Validate w (snd (Validate w c))
  = (fst (Validate w c), snd (Validate w c)).
Proof.
  rewrite (Validate_spec w c). cbn [fst snd].
  rewrite Validate_spec.
  change (checks w (set_SendJWT (SendJWT c || SendJWT_assigned w c) c))
    with (checks w c).
  change (SendJWT_assigned w
            (set_SendJWT (SendJWT c || SendJWT_assigned w c) c))
    with (SendJWT_assigned w c).
  cbn [SendJWT set_SendJWT].
  by destruct (SendJWT c), (SendJWT_assigned w c).
Qed.

(** X3.  On a configuration whose [SendJWT] is not yet set (as
    [NewConfig] builds it) and that [Validate] accepts, [SendJWT] ends up
    set exactly when a token source, [JwtKey] or [JwtsFilename], is
    given. *)
Theorem Validate_sets_SendJWT_for_token_source (w : World) (c : Config) :
  SendJWT c = false →
  fst (Validate w c) = None →
  (SendJWT (snd (Validate w c)) = true
   ↔ JwtKey c ≠ "" ∨ JwtsFilename c ≠ "").
Proof.
  rewrite Validate_spec. cbn [fst snd SendJWT set_SendJWT].
  intros -> H. cbn [orb]. rewrite SendJWT_assigned_tests.
  unfold checks in H. rewrite first_error_app in H.
  destruct (first_error (checks_before_jwt w c)); [done|].
  cbn [app first_error] in H.
  destruct (chk_jwt_key w c); [done|].
  destruct (chk_jwt_file w c); [done|].
  rewrite orb_true_iff, !negb_true_iff, !String.eqb_neq. tauto.
Qed.

(** A configuration with a key file, a token header and ten requests is
    accepted, and leaves [Validate] with [SendJWT] set. *)
Lemma Validate_sets_SendJWT_for_token_source_witness :
  SendJWT (snd (Validate sample.world
                  (sample.config "http://localhost:8080/path" 10 2 0 false
                     sample.second "jwt.key" "Authorization" ""))) = true.
Proof.
  apply (Validate_sets_SendJWT_for_token_source sample.world
           (sample.config "http://localhost:8080/path" 10 2 0 false
              sample.second "jwt.key" "Authorization" "")).
  - reflexivity.
  - reflexivity.
  - by left.
Defined.

(** X4.  The error on headers names the first header, in the order of
    the list, that holds no colon. *)
Theorem Validate_reports_first_bad_header (w : World) (c : Config)
    (h : string) :
  fst (Validate w c) = Some (ErrHeaderNoColon h) →
  ∃ before after,
    Headers c = (before ++ h :: after)%list
    ∧ (∀ x, In x before → ∃ pre post, x = pre ++ ":" ++ post)
    ∧ ¬ ∃ pre post, h = pre ++ ":" ++ post.
Proof.
  rewrite Validate_spec. cbn [fst]. intros H.
  apply first_error_elem in H.
  unfold checks, checks_before_jwt, checks_after_jwt in H.
  cbn [app In] in H.
  assert (Hh : chk_headers c = Some (ErrHeaderNoColon h)).
  { repeat (destruct H as [H|H];
            [first [ exact H | exfalso; open_check H ] |]).
    done. }
  clear H. unfold chk_headers in Hh.
  destruct (0 <? Z.of_nat (List.length (Headers c))); [|done].
  destruct (List.find _ (Headers c)) as [h'|] eqn:E; [|done].
  injection Hh as ->.
  apply find_first in E as (l1 & l2 & Hl & Hbad & Hgood).
  exists l1, l2. split_and!; [done| |].
  - intros x Hx. apply Contains_app. apply Hgood in Hx.
    by destruct (Contains x ":").
  - intros Hc%Contains_app. by rewrite Hc in Hbad.
Qed.

(** With the headers [a: 1], [b], [c], the error names [b]. *)
Lemma Validate_reports_first_bad_header_witness :
  ∃ before after,
    ["a: 1"; "b"; "c"] = (before ++ "b" :: after)%list
    ∧ (∀ x, In x before → ∃ pre post, x = pre ++ ":" ++ post)
    ∧ ¬ ∃ pre post, "b" = pre ++ ":" ++ post.
Proof.
  apply (Validate_reports_first_bad_header sample.world
           (sample2.config_with_headers ["a: 1"; "b"; "c"]) "b").
  reflexivity.
Defined.

(** X5.  A connection count from 2^63 on turns negative in the
    conversion [int64(c.Conns)]: with a request target that is not
    negative, neither test on connections fires, and [Validate] never
    returns [errConnLimit], however many more connections than requests
    there are. *)
Theorem Validate_connection_limit_wraps (w : World) (c : Config) :
  2 ^ 63 ≤ Conns c ≤ GoInt.uint_max →
  0 ≤ ReqTarget c →
  fst (Validate w c) ≠ Some errConnLimit.
Proof.
  intros HC HR H. rewrite Validate_spec in H. cbn [fst] in H.
  apply errConnLimit_source in H as [_ H].
  assert (Hneg : GoInt.int64_of_uint (Conns c) < 0).
  { unfold GoInt.int64_of_uint, GoInt.uint_max in *.
    rewrite Z.mod_small by lia.
    destruct (Z.ltb_spec (Conns c) (2 ^ 63)); lia. }
  unfold chk_limit_no_duration, chk_limit_both_budgets in H.
  destruct (Z.gtb_spec (GoInt.int64_of_uint (Conns c)) (ReqTarget c));
    [lia|].
  cbn [andb] in H. by destruct H.
Qed.

(** 2^63 connections for one request and no duration: [Validate] accepts
    the configuration. *)
Lemma Validate_connection_limit_wraps_witness :
  fst (Validate sample.world
         (sample.config "http://localhost:8080/path" 1 (2 ^ 63) 0 false
            sample.second "" "" "")) ≠ Some errConnLimit
  ∧ fst (Validate sample.world
           (sample.config "http://localhost:8080/path" 1 (2 ^ 63) 0 false
              sample.second "" "" "")) = None.
Proof.
  split; [|by vm_compute].
  apply (Validate_connection_limit_wraps sample.world
           (sample.config "http://localhost:8080/path" 1 (2 ^ 63) 0 false
              sample.second "" "" "")).
  - by vm_compute.
  - by vm_compute.
Defined.

(** X6.  A request URI that does not parse is what [Validate] reports,
    with the error of the parser, whatever else is wrong with the
    configuration; the receiver is left as it was. *)
Theorem Validate_reports_uri_first (w : World) (c : Config) (err : string) :
  ParseRequestURI w (ReqURI c) = inr err →
  Validate w c = (Some (ErrInvalidURI err), c).
Proof.
  intros H. rewrite Validate_spec, SendJWT_assigned_tests.
  unfold checks, checks_before_jwt. cbn [app].
  unfold chk_uri at 1 2. rewrite H. cbn [first_error].
  by rewrite orb_false_r, set_SendJWT_id.
Qed.

(** An empty request URI, with no connection, no budget and no timeout
    besides: the error is the one on the URI. *)
Lemma Validate_reports_uri_first_witness :
  Validate sample.world
    (config.NewConfig spec.never_done "" "" "" false 0 0 0 false 0 0 "PATCH"
       false 0 "" "" "" "" "" "" "" "" ["x"] "" "" "")
  = (Some (ErrInvalidURI "empty url"),
     config.NewConfig spec.never_done "" "" "" false 0 0 0 false 0 0 "PATCH"
       false 0 "" "" "" "" "" "" "" "" ["x"] "" "" "").
Proof.
  apply (Validate_reports_uri_first sample.world
           (config.NewConfig spec.never_done "" "" "" false 0 0 0 false 0 0
              "PATCH" false 0 "" "" "" "" "" "" "" "" ["x"] "" "" "")).
  reflexivity.
Defined.

(** X7.  The pattern [regExHostURI] is searched anywhere in the request
    URI: a string that holds a match still matches with any text put
    before and after it. *)
Theorem regExHostURI_unanchored (s pre post : string) :
  regexp.MatchString regExHostURI s = true →
  regexp.MatchString regExHostURI (pre ++ s ++ post) = true.
Proof.
  rewrite !MatchString_spec.
  intros (p & m & q & Hs & Hm).
  exists (list_ascii_of_string pre ++ p)%list, m,
    (q ++ list_ascii_of_string post)%list.
  split; [|done].
  rewrite !list_ascii_of_string_app, Hs. by rewrite <- !app_assoc.
Qed.

(** [http://a:1] matches, and so does it behind [ftp://] and before a
    line of text. *)
Lemma regExHostURI_unanchored_witness :
  regexp.MatchString regExHostURI ("ftp://" ++ "http://a:1" ++ " and more")
  = true.
Proof.
  apply (regExHostURI_unanchored "http://a:1" "ftp://" " and more").
  reflexivity.
Defined.

End ValidateMore.

(** ** [WorkerFixedReqs.Run] under cancellation *)

Section Cancellation.
Import worker spec spec2.
Local Open Scope Z_scope.

Context {St : Type}.
Variable run : St -> St.

(** The loop stops at the first poll that finds the context done. *)
Lemma request_loop_cancelled ctx n k j s :
  (∀ i, (k ≤ i < k + j)%nat → ctx i = false) →
  ctx (k + j)%nat = true →
  (j < n)%nat →
  request_loop run ctx n k s = (true, S (k + j), Nat.iter j run s).
Proof.
  revert n k s. induction j as [|j IH]; intros n k s Hno Hyes Hlt.
  - destruct n as [|n]; [lia|]. cbn [request_loop].
    rewrite Nat.add_0_r in Hyes. by rewrite Hyes, Nat.add_0_r.
  - destruct n as [|n]; [lia|]. cbn [request_loop].
    rewrite (Hno k) by lia.
    rewrite (IH n (S k) (run s)).
    + by rewrite Nat.iter_succ_r, Nat.add_succ_r.
    + intros i Hi. apply Hno. lia.
    + by rewrite Nat.add_succ_r in Hyes.
    + lia.
Qed.

Lemma request_loop_completes ctx n k s :
  (∀ i, (k ≤ i < k + n)%nat → ctx i = false) →
  request_loop run ctx n k s = (false, (k + n)%nat, Nat.iter n run s).
Proof.
  revert k s. induction n as [|n IH]; intros k s Hno.
  - cbn. by rewrite Nat.add_0_r.
  - cbn [request_loop]. rewrite (Hno k) by lia.
    rewrite IH by (intros i Hi; apply Hno; lia).
    by rewrite Nat.iter_succ_r, Nat.add_succ_r.
Qed.

(** X8.  When the context is first found done at the [j]-th poll, with
    [j] below the number of iterations that the loops offer, [Run]
    returns after exactly [j] calls of [w.run()]: the calls made before
    the cancellation are kept, none is made after it, also when the
    cancellation falls into the loop of the verbose block. *)
Theorem Run_cancelled (config : Config) (j : nat) (s : St) :
  (∀ i, (i < j)%nat → Ctx config i = false) →
  Ctx config j = true →
  (j < iterations config)%nat →
  Run run config s = Nat.iter j run s.
Proof.
  intros Hno Hyes Hlt. unfold Run, iterations in *.
  destruct (Verbose config).
  - destruct (Nat.lt_ge_cases j (Z.to_nat (Reqs config))) as [Hj|Hj].
    + by rewrite (request_loop_cancelled _ _ 0 j)
        by (cbn; auto with lia).
    + rewrite request_loop_completes by (intros i Hi; apply Hno; lia).
      cbn [Nat.add].
      rewrite (request_loop_cancelled _ _ _ (j - Z.to_nat (Reqs config))).
      * rewrite <- Nat.iter_add. f_equal. lia.
      * intros i Hi. apply Hno. lia.
      * by replace (Z.to_nat (Reqs config)
                    + (j - Z.to_nat (Reqs config)))%nat with j by lia.
      * lia.
  - by rewrite (request_loop_cancelled _ _ 0 j) by (cbn; auto with lia).
Qed.

End Cancellation.

Section CancellationCount.
Import worker spec spec2.
Local Open Scope string_scope.
Local Open Scope Z_scope.

(** A context that is done from the fourth poll on stops a worker with a
    budget of ten requests after three. *)
Lemma Run_cancelled_witness :
  requests_issued (sample2.cancelled_worker_config 10 false) = 3%nat.
Proof.
  apply (Run_cancelled S (sample2.cancelled_worker_config 10 false) 3 O).
  - intros i Hi. change ((3 <=? i)%nat = false). apply Nat.leb_gt. lia.
  - reflexivity.
  - cbn. lia.
Defined.

(** The loop never makes more calls than it has iterations. *)
Lemma request_loop_count ctx n k s :
  (s ≤ snd (request_loop S ctx n k s) ≤ s + n)%nat.
Proof.
  revert k s. induction n as [|n IH]; intros k s; cbn [request_loop].
  - cbn. lia.
  - destruct (ctx k); cbn [snd]; [lia|].
    specialize (IH (S k) (S s)). lia.
Qed.

(** X9.  Whatever the context does, [Run] calls [w.run()] at most
    [Reqs] times when [Verbose] is off, at most twice [Reqs] times when
    it is on; with a budget that is zero or negative it makes no call. *)
Theorem Run_requests_bounded (config : Config) :
  (requests_issued config ≤ iterations config)%nat
  ∧ (Reqs config ≤ 0 → requests_issued config = 0%nat).
Proof.
  assert (H : (requests_issued config ≤ iterations config)%nat).
  { unfold requests_issued, Run, iterations.
    destruct (Verbose config).
    - pose proof (request_loop_count (Ctx config)
                    (Z.to_nat (Reqs config)) O O) as H1.
      destruct (request_loop S (Ctx config) (Z.to_nat (Reqs config)) O O)
        as [[[] k] s1]; cbn [snd] in H1; [lia|].
      pose proof (request_loop_count (Ctx config)
                    (Z.to_nat (Reqs config)) k s1) as H2.
      destruct (request_loop S (Ctx config) (Z.to_nat (Reqs config)) k s1)
        as [[b k'] s2]; cbn [snd] in H2. lia.
    - pose proof (request_loop_count (Ctx config)
                    (Z.to_nat (Reqs config)) O O) as H1.
      destruct (request_loop S (Ctx config) (Z.to_nat (Reqs config)) O O)
        as [[b k] s1]; cbn [snd] in H1. lia. }
  split; [done|]. intros HR. unfold iterations in H.
  replace (Z.to_nat (Reqs config)) with 0%nat in H by lia.
  destruct (Verbose config); lia.
Qed.

(** A budget of minus one request: no request, verbose or not. *)
Lemma Run_requests_bounded_witness :
  requests_issued (sample.worker_config "http://localhost:8080/path" (-1) 0
                     true) = 0%nat.
Proof.
  apply (proj2 (Run_requests_bounded
                  (sample.worker_config "http://localhost:8080/path" (-1) 0
                     true))).
  by vm_compute.
Defined.

End CancellationCount.

(** ** More on [NewWorker] and [getClient] *)

Section NewWorkerMore.
Import worker spec spec2.
Local Open Scope string_scope.
Local Open Scope Z_scope.
Variable w : World.

(** What a client that [getClient] returns is made of: the client that
    [getClient] builds, as it is without [HTTPV2], as the HTTP/2 library
    leaves it with [HTTPV2]. *)
Lemma getClient_client c cl :
  getClient w c = inl cl →
  ∃ u built,
    ParseRequestURI w (ReqURI c) = inl u
    ∧ Addr built = Host u
    ∧ IsTLS built = String.eqb (Scheme u) "https"
    ∧ MaxConns built = 1
    ∧ hc_ReadTimeout built = ReadTimeout c
    ∧ hc_WriteTimeout built = WriteTimeout c
    ∧ DisableHeaderNamesNormalizing built = true
    ∧ InsecureSkipVerify (TLSConfig built) = SkipVerify c
    ∧ hc_Transport built = DefaultTransport
    ∧ if HTTPV2 c
      then ConfigureClient w built (ReadTimeout c) = inl cl
      else cl = built.
Proof.
  unfold getClient.
  destruct (negb _ && negb _);
    [destruct (LoadX509KeyPair _ _ _); [|done]|];
    (destruct (ParseRequestURI _ _) as [u|]; [|done]);
    (destruct (HTTPV2 c); cbn [negb];
     [destruct (ConfigureClient _ _ _) as [cl'|] eqn:E; [|done]|]);
    intros [= <-]; exists u; eexists;
    (split_and!; [..|first [exact E | reflexivity]]); done.
Qed.

(** X10.  A call of [NewWorker] that returns no worker leaves the
    package variables as they were; a call that returns one leaves both
    pools set.  It returns the error of [getClient] and no other, and it
    panics only on a [nil] configuration. *)
Theorem NewWorker_process (l : loc) (σ : Process) :
  match fst (NewWorker w l σ) with
  | Ok _ =>
      requestPool (snd (NewWorker w l σ)) ≠ None
      ∧ responsePool (snd (NewWorker w l σ)) ≠ None
      ∧ heap (snd (NewWorker w l σ)) = heap σ
  | Err err =>
      snd (NewWorker w l σ) = σ
      ∧ ∃ c, heap σ !! l = Some c ∧ getClient w c = inr err
  | Panic =>
      snd (NewWorker w l σ) = σ ∧ heap σ !! l = None
  end.
Proof.
  unfold NewWorker. destruct (heap σ !! l) as [c|] eqn:Hl; [|done].
  destruct (getClient w c) as [cl|err] eqn:Hc.
  2:{ cbn [fst snd]. split; [done|]. by exists c. }
  destruct σ as [h [rq|] [rs|]]; cbn [heap requestPool responsePool] in *;
    destruct (negb (TimeLimited c)), (UnlimitedReqs c);
    cbn [fst snd heap requestPool responsePool]; by split_and!.
Qed.

(** X11.  Every worker that [NewWorker] returns holds the pointer it was
    given, statistics that start empty, and a client that [getClient]
    built for the host of the request URI, limited to one connection,
    with the timeouts and the skip-verify flag of the configuration, TLS
    exactly for the scheme [https], header names left as they are and no
    transport set.  Without [HTTPV2] the worker holds that client as it
    was built; with [HTTPV2] it holds what [http2.ConfigureClient]
    made of it, called with the read timeout as the maximal response
    time. *)
Theorem NewWorker_worker (l : loc) (σ : Process) (wk : Worker) :
  fst (NewWorker w l σ) = Ok wk →
  ∃ c u built,
    heap σ !! l = Some c
    ∧ ParseRequestURI w (ReqURI c) = inl u
    ∧ config (base_of wk) = l
    ∧ stats (base_of wk)
      = {| CompletedReqs := 0; FailedReqs := 0; stats_Reqs := [];
           Responses := ∅; Errors := ∅ |}
    ∧ Addr built = Host u
    ∧ IsTLS built = String.eqb (Scheme u) "https"
    ∧ MaxConns built = 1
    ∧ hc_ReadTimeout built = ReadTimeout c
    ∧ hc_WriteTimeout built = WriteTimeout c
    ∧ DisableHeaderNamesNormalizing built = true
    ∧ InsecureSkipVerify (TLSConfig built) = SkipVerify c
    ∧ hc_Transport built = DefaultTransport
    ∧ if HTTPV2 c
      then ConfigureClient w built (ReadTimeout c)
           = inl (client (base_of wk))
      else client (base_of wk) = built.
Proof.
  destruct (heap σ !! l) as [c|] eqn:Hl.
  2:{ unfold NewWorker. by rewrite Hl. }
  rewrite (NewWorker_result w l σ c Hl).
  destruct (getClient w c) as [cl|] eqn:Hc; [|done].
  apply getClient_client in Hc
    as (u & built & Hu & H1 & H2 & H3 & H4 & H5 & H6 & H7 & H8 & H9).
  intros H. exists c, u, built.
  destruct (Until c =? 0); [|destruct (Reqs c =? 0)];
    injection H as <-; cbn [base_of baseConfig config client stats];
    by split_and!.
Qed.

(** X12.  The kind of the worker follows from tests against zero alone:
    [WorkerFixedReqs] exactly when [Until] is zero (whatever [Reqs] is),
    [WorkerFixedTime] exactly when [Until] is not zero and [Reqs] is,
    [WorkerFixedTimeRequests] exactly when neither is zero. *)
Theorem NewWorker_kind (l : loc) (σ : Process) (c : Config) (wk : Worker) :
  heap σ !! l = Some c →
  fst (NewWorker w l σ) = Ok wk →
  (kind_of wk = FixedReqs ↔ Until c = 0)
  ∧ (kind_of wk = FixedTime ↔ Until c ≠ 0 ∧ Reqs c = 0)
  ∧ (kind_of wk = FixedTimeRequests ↔ Until c ≠ 0 ∧ Reqs c ≠ 0).
Proof.
  intros Hl. rewrite (NewWorker_result w l σ c Hl).
  destruct (getClient w c) as [cl|]; [|done].
  destruct (Z.eqb_spec (Until c) 0) as [HU|HU];
    [|destruct (Z.eqb_spec (Reqs c) 0) as [HR|HR]];
    intros [= <-]; cbn [kind_of]; split_and!; split;
    try done; try tauto; by intros [? ?].
Qed.

(** X13.  The errors of [getClient] in their order: with both mTLS
    paths given, a key pair that does not load is reported before the
    request URI is looked at; a request URI that does not parse is
    reported otherwise; and without [HTTPV2] nothing else can fail. *)
Theorem getClient_errors (c : Config) :
  (∀ err, MTLSCert c ≠ "" → MTLSKey c ≠ "" →
          LoadX509KeyPair w (MTLSCert c) (MTLSKey c) = inr err →
          getClient w c = inr err)
  ∧ (∀ err, (MTLSCert c = "" ∨ MTLSKey c = ""
             ∨ ∃ cert, LoadX509KeyPair w (MTLSCert c) (MTLSKey c)
                       = inl cert) →
            ParseRequestURI w (ReqURI c) = inr err →
            getClient w c = inr err)
  ∧ ((MTLSCert c = "" ∨ MTLSKey c = ""
      ∨ ∃ cert, LoadX509KeyPair w (MTLSCert c) (MTLSKey c) = inl cert) →
     (∃ u, ParseRequestURI w (ReqURI c) = inl u) →
     HTTPV2 c = false →
     ∃ cl, getClient w c = inl cl).
Proof.
  unfold getClient. split_and!.
  - intros err Hc%String.eqb_neq Hk%String.eqb_neq Hload.
    by rewrite Hc, Hk, Hload.
  - intros err Hm Hu. rewrite Hu.
    destruct (String.eqb_spec (MTLSCert c) ""),
      (String.eqb_spec (MTLSKey c) ""); cbn [negb andb]; try done.
    destruct Hm as [?|[?|[cert ->]]]; done.
  - intros Hm [u Hu] Hv. rewrite Hu, Hv. cbn [negb].
    destruct (String.eqb_spec (MTLSCert c) ""),
      (String.eqb_spec (MTLSKey c) ""); cbn [negb andb]; eauto.
    destruct Hm as [?|[?|[cert ->]]]; try done. eauto.
Qed.

End NewWorkerMore.

Section NewWorkerMoreSamples.
Import worker spec spec2.
Local Open Scope string_scope.
Local Open Scope Z_scope.

(** A worker built over HTTP/2 for a configuration with both mTLS
    paths: its client is what the HTTP/2 library of the sample world
    made of the client that [getClient] built. *)
Lemma NewWorker_worker_witness :
  ∃ c u built,
    heap (fresh {[ 1%nat := sample2.mtls_worker_config true ]}) !! 1%nat
    = Some c
    ∧ ParseRequestURI sample.world (ReqURI c) = inl u
    ∧ config (baseConfig 1%nat sample2.http2_host_client) = 1%nat
    ∧ stats (baseConfig 1%nat sample2.http2_host_client)
      = {| CompletedReqs := 0; FailedReqs := 0; stats_Reqs := [];
           Responses := ∅; Errors := ∅ |}
    ∧ Addr built = Host u
    ∧ IsTLS built = String.eqb (Scheme u) "https"
    ∧ MaxConns built = 1
    ∧ hc_ReadTimeout built = ReadTimeout c
    ∧ hc_WriteTimeout built = WriteTimeout c
    ∧ DisableHeaderNamesNormalizing built = true
    ∧ InsecureSkipVerify (TLSConfig built) = SkipVerify c
    ∧ hc_Transport built = DefaultTransport
    ∧ if HTTPV2 c
      then ConfigureClient sample.world built (ReadTimeout c)
           = inl (client (baseConfig 1%nat sample2.http2_host_client))
      else client (baseConfig 1%nat sample2.http2_host_client) = built.
Proof.
  apply (NewWorker_worker sample.world 1%nat
           (fresh {[ 1%nat := sample2.mtls_worker_config true ]})
           (WorkerFixedReqs (baseConfig 1%nat sample2.http2_host_client))).
  by vm_compute.
Defined.

(** The second sample configuration has no duration: the worker is a
    [WorkerFixedReqs]. *)
Lemma NewWorker_kind_witness :
  Until sample.other_worker_config = 0.
Proof.
  assert (Hl : heap (fresh sample.configs) !! 2%nat
               = Some sample.other_worker_config) by (by vm_compute).
  assert (Hwk : ∃ wk, fst (NewWorker sample.world 2%nat
                             (fresh sample.configs)) = Ok wk
                      ∧ kind_of wk = FixedReqs).
  { eexists. split; by vm_compute. }
  destruct Hwk as (wk & Hwk & Hk).
  exact (proj1 (proj1 (NewWorker_kind sample.world 2%nat
                         (fresh sample.configs) sample.other_worker_config
                         wk Hl Hwk)) Hk).
Defined.

(** The third sample configuration has an empty request URI: [getClient]
    returns the error of the parser. *)
Lemma getClient_errors_witness :
  getClient sample.world
    (sample.worker_config "" 10 0 false) = inr "empty url".
Proof.
  apply (proj1 (proj2 (getClient_errors sample.world
                         (sample.worker_config "" 10 0 false)))).
  - by left.
  - reflexivity.
Defined.

End NewWorkerMoreSamples.

(** ** The net/http client *)

Section NetHTTP.
Import nethttp nethttp_calls spec2.
Local Open Scope string_scope.
Local Open Scope Z_scope.
Variable w : World.

(** X14.  The two constructors of the net/http client fail on the same
    configurations, with the same error, and build the same TLS
    configuration, which carries the skip-verify flag; the HTTP/3 client
    is built without a timeout, whatever the configuration asks for. *)
Theorem GetNetHTTP3Client_as_GetNetHTTPClient (config : Config) :
  (∀ err, GetNetHTTP3Client w config = inr err
          ↔ GetNetHTTPClient w config = inr err)
  ∧ (∀ c3, GetNetHTTP3Client w config = inl c3 →
           Timeout (client c3) = 0
           ∧ InsecureSkipVerify (TLSClientConfig (Transport (client c3)))
             = SkipVerify config
           ∧ ∃ c, GetNetHTTPClient w config = inl c
                  ∧ TLSClientConfig (Transport (client c))
                    = TLSClientConfig (Transport (client c3)))
  ∧ (∀ c, GetNetHTTPClient w config = inl c →
          ∃ c3, GetNetHTTP3Client w config = inl c3).
Proof.
  unfold GetNetHTTP3Client, GetNetHTTPClient, tlsConfig_of.
  destruct (negb _ && negb _);
    [destruct (LoadX509KeyPair _ _ _) as [cert|e]|]; split_and!.
  all: try (intros err; split; congruence).
  all: try (intros c [= <-]; cbn; split_and!; try done; by eexists).
  all: try (intros c _; by eexists).
  all: done.
Qed.

(** X15.  The timeout of the client that [GetNetHTTPClient] builds is
    the sum of the read and the write timeout as long as the sum is an
    [int64]; beyond, it wraps around and comes out negative (or, for two
    negative timeouts, positive). *)
Theorem GetNetHTTPClient_timeout (config : Config) (c : Client) :
  GetNetHTTPClient w config = inl c →
  - 2 ^ 63 ≤ ReadTimeout config < 2 ^ 63 →
  - 2 ^ 63 ≤ WriteTimeout config < 2 ^ 63 →
  (- 2 ^ 63 ≤ ReadTimeout config + WriteTimeout config < 2 ^ 63 →
   Timeout (client c) = ReadTimeout config + WriteTimeout config)
  ∧ (2 ^ 63 ≤ ReadTimeout config + WriteTimeout config →
     Timeout (client c)
     = ReadTimeout config + WriteTimeout config - 2 ^ 64
     ∧ Timeout (client c) < 0)
  ∧ (ReadTimeout config + WriteTimeout config < - 2 ^ 63 →
     Timeout (client c)
     = ReadTimeout config + WriteTimeout config + 2 ^ 64
     ∧ 0 ≤ Timeout (client c)).
Proof.
  unfold GetNetHTTPClient.
  destruct (tlsConfig_of w config); [|done]. intros [= <-].
  cbn [client Timeout]. unfold add64.
  change (2 ^ 63) with 9223372036854775808.
  change (2 ^ 64) with 18446744073709551616.
  intros HR HW. split_and!; intros Hsum.
  - rewrite Z.mod_small; lia.
  - assert ((ReadTimeout config + WriteTimeout config
             + 9223372036854775808) mod 18446744073709551616
            = ReadTimeout config + WriteTimeout config
              + 9223372036854775808 - 18446744073709551616) as ->
      by (symmetry; apply (Z.mod_unique_pos _ _ 1); lia).
    lia.
  - assert ((ReadTimeout config + WriteTimeout config
             + 9223372036854775808) mod 18446744073709551616
            = ReadTimeout config + WriteTimeout config
              + 9223372036854775808 + 18446744073709551616) as ->
      by (symmetry; apply (Z.mod_unique_pos _ _ (-1)); lia).
    lia.
Qed.

Variable h : HTTP.

(** X16.  [Do] hands on the error of [http.Client.Do] as it is, and
    replaces whatever response the [Resp] held by the one that call
    returned, also when there is an error: reading the status code
    afterwards panics exactly when the call returned no response, as it
    does on a [Resp] fresh from [NewResponse]. *)
Theorem Do_then_StatusCode (fh : Client) (request : Req) (r : Resp) :
  snd (Do h fh request r) = snd (client_Do h (client fh) (req request))
  ∧ Do h fh request r = Do h fh request NewResponse
  ∧ StatusCode NewResponse = worker.Panic
  ∧ (StatusCode (fst (Do h fh request r)) = worker.Panic
     ↔ fst (client_Do h (client fh) (req request)) = None)
  ∧ (∀ response,
       fst (client_Do h (client fh) (req request)) = Some response →
       StatusCode (fst (Do h fh request r))
       = worker.Ok (resp_StatusCode response)).
Proof.
  unfold Do, StatusCode.
  destruct (client_Do h (client fh) (req request)) as [[response|] err];
    cbn; split_and!; try done.
  - by intros ? [= <-].
Qed.

Lemma calls_snoc (l : list setter) (s : setter) (r : Req) :
  calls h (l ++ [s]) r = call h s (calls h l r).
Proof. unfold calls. by rewrite fold_left_app. Qed.

Lemma last_method_snoc (l : list setter) (s : setter) :
  last_method (l ++ [s])
  = if s is method m then Some m else last_method l.
Proof. unfold last_method. by rewrite fold_left_app. Qed.

Lemma last_body_snoc (l : list setter) (s : setter) :
  last_body (l ++ [s]) = if s is body b then Some b else last_body l.
Proof. unfold last_body. by rewrite fold_left_app. Qed.

Lemma last_header_snoc (k : string) (l : list setter) (s : setter) :
  last_header h k (l ++ [s])
  = match s with
    | header key val =>
        if String.eqb (CanonicalMIMEHeaderKey h key) k
        then Some val else last_header h k l
    | _ => last_header h k l
    end.
Proof. unfold last_header. by rewrite fold_left_app. Qed.

(** X17.  After any series of calls of the setters of a request, the
    method is the one of the last [SetMethod], the header under a
    canonical key holds the single value of the last [SetHeader] for a
    key of that canonical form, [GetBody] returns the content of the last
    [SetBody], each as it was before when there was no such call; and
    the field [Body] of the request is what it was: [SetBody] never
    writes it. *)
Theorem setters_last_call_wins (l : list setter) (r : Req) :
  req_Body (req (calls h l r)) = req_Body (req r)
  ∧ req_Method (req (calls h l r))
    = default (req_Method (req r)) (last_method l)
  ∧ req_GetBody (req (calls h l r))
    = (if last_body l is Some b then Some b else req_GetBody (req r))
  ∧ ∀ k, req_Header (req (calls h l r)) !! k
         = (if last_header h k l is Some val then Some [val]
            else req_Header (req r) !! k).
Proof.
  induction l as [|s l IH] using rev_ind; [done|].
  destruct IH as (IHb & IHm & IHg & IHh).
  rewrite calls_snoc, last_method_snoc, last_body_snoc.
  split_and!; [by destruct s|by destruct s|by destruct s|].
  intros k. rewrite last_header_snoc.
  destruct s as [key val|m|b]; cbn [call SetHeader SetMethod SetBody req
    req_Header]; [|apply IHh..].
  destruct (String.eqb_spec (CanonicalMIMEHeaderKey h key) k) as [->|Hk].
  - by rewrite lookup_insert_eq.
  - rewrite lookup_insert_ne by done. apply IHh.
Qed.

End NetHTTP.

Section NetHTTPSamples.
Import nethttp.
Local Open Scope Z_scope.

(** Two timeouts of five seconds give a timeout of ten. *)
Lemma GetNetHTTPClient_timeout_witness :
  Timeout {| Transport :=
               http_Transport {| InsecureSkipVerify := false;
                                 Certificates := [] |};
             Timeout := 10 * sample.second |}
  = ReadTimeout sample.nethttp_config + WriteTimeout sample.nethttp_config.
Proof.
  apply (proj1 (GetNetHTTPClient_timeout sample.world sample.nethttp_config
     {| client := {| Transport :=
                       http_Transport {| InsecureSkipVerify := false;
                                         Certificates := [] |};
                     Timeout := 10 * sample.second |} |}
     eq_refl ltac:(by vm_compute) ltac:(by vm_compute))).
  by vm_compute.
Defined.

End NetHTTPSamples.
